(** * Client-side orchestration of the document authoring platform

    A shallow embedding of the React pages [NewProject.js],
    [ProjectEditor.js], [Dashboard.js], [Profile.js] and of the axios
    client [api.js], together with a model of the document store and the
    export adapter they talk to, and of the session handling of
    [AuthContext.js], [authService.js], [Login.js] and [Header.js].

    Conventions.
    - A JS object used as a dictionary ([refinementResults], [comments], ...)
      is a [gmap string _]; a key that was never written reads as
      [undefined], which is the [None] of the lookup.
    - A React handler closes over the state of the render that created it:
      it reads that snapshot and schedules new values with the setters.
      A handler is therefore a function of the snapshot that runs in a
      monad holding the next state, the backend and the trace of visible
      effects.  Handlers run one at a time, each on the state the previous
      one left.
    - The HTTP server is not part of the client.  Every handler is defined
      over an arbitrary [Backend], a function that answers each request of
      [api.js] and moves the server to its next state. *)

From stdpp Require Import gmap strings list fin_maps pretty infinite.


(** ** JavaScript helpers *)

Module JS.

(** [String.prototype.trim] on the ASCII white space characters
    (TAB, LF, VT, FF, CR and SPACE). *)
Definition is_ws (c : Ascii.ascii) : bool :=
  let n := Ascii.nat_of_ascii c in
  (Nat.leb 9 n && Nat.leb n 13) || Nat.eqb n 32.

Fixpoint trimStart (s : string) : string :=
  match s with
  | String c s' => if is_ws c then trimStart s' else s
  | EmptyString => EmptyString
  end.

Definition trim (s : string) : string :=
  String.rev (trimStart (String.rev (trimStart s))).

(** Truthiness of a string: only the empty string is falsy. *)
Definition truthy (s : string) : bool := negb (String.eqb s "").

(** [x?.trim()] followed by a truthiness test, as in [!prompt?.trim()]:
    [undefined] stays [undefined], which is falsy. *)
Definition truthy_trim (x : option string) : bool :=
  match x with
  | Some s => truthy (trim s)
  | None => false
  end.

(** [x || ''] on an optional string. *)
Definition or_empty (x : option string) : string :=
  match x with
  | Some s => if truthy s then s else ""
  | None => ""
  end.

(** [arr.findIndex(p)], with [None] for the -1 of JavaScript. *)
Fixpoint findIndex {A} (p : A → bool) (l : list A) : option nat :=
  match l with
  | [] => None
  | x :: l' => if p x then Some 0 else S <$> findIndex p l'
  end.

(** [arr[i]] for a number [i] that may be negative. *)
Definition at_index {A} (l : list A) (i : Z) : option A :=
  if bool_decide (0 ≤ i)%Z then l !! Z.to_nat i else None.

End JS.

(** ** Data model *)

(** The content of a section is a text block, the content of a slide a
    list of bullets. *)
Inductive Content :=
| Text (s : string)
| Bullets (bs : list string).

(** A section or a slide.  [content] and [generated_at] are absent until
    content was generated. *)
Module Item.
Record t := mk {
  id : string;
  title : string;
  order : nat;
  content : option Content;
  generated_at : option string
}.

Definition set_order (n : nat) (it : t) : t :=
  mk (id it) (title it) n (content it) (generated_at it).
Definition set_title (s : string) (it : t) : t :=
  mk (id it) s (order it) (content it) (generated_at it).
Definition set_content (c : option Content) (it : t) : t :=
  mk (id it) (title it) (order it) c (generated_at it).
Definition set_generated (c : option Content) (at' : option string) (it : t)
  : t :=
  mk (id it) (title it) (order it) c at'.
End Item.

(** The four fields of the wizard's first step. *)
Module FormData.
Record t := mk {
  title : string;
  topic : string;
  description : string;
  document_type : string
}.
End FormData.

(** The body of [POST /projects]: the form fields spread into an object
    that carries [sections] or [slides]; the other one is [undefined]. *)
Module ProjectData.
Record t := mk {
  form : FormData.t;
  sections : option (list Item.t);
  slides : option (list Item.t)
}.
End ProjectData.

Module Project.
Record t := mk {
  id : string;
  title : string;
  topic : string;
  description : string;
  document_type : string;
  status : string;
  sections : option (list Item.t);
  slides : option (list Item.t)
}.

Definition set_sections (l : option (list Item.t)) (p : t) : t :=
  mk (id p) (title p) (topic p) (description p) (document_type p)
     (status p) l (slides p).
Definition set_slides (l : option (list Item.t)) (p : t) : t :=
  mk (id p) (title p) (topic p) (description p) (document_type p)
     (status p) (sections p) l.
Definition set_status (st : string) (p : t) : t :=
  mk (id p) (title p) (topic p) (description p) (document_type p)
     st (sections p) (slides p).
End Project.

(** Response payloads. *)
Record Outline := mkOutline {
  outline_sections : option (list Item.t);
  outline_slides : option (list Item.t)
}.

Record Generated := mkGenerated {
  gen_content : Content;
  gen_generated_at : string
}.

Record RefinementResult := mkRefinement {
  refined_content : Content
}.

Record Feedback := mkFeedback {
  liked : option bool;
  comment : string
}.

(** What the bytes of an exported file encode: one titled part per
    content item. *)
Record Document := mkDocument {
  doc_parts : list (string * Content)
}.

(** The response of the export route: [response.data] and
    [response.headers['content-type']]. *)
Record Blob := mkBlob {
  blob_data : Document;
  blob_content_type : option string
}.

Module ProfileData.
Record t := mk {
  name : string; email : string; bio : string;
  company : string; title : string; location : string
}.
End ProfileData.

Record Stats := mkStats {
  totalProjects : nat; documentsCreated : nat; timesSaved : nat;
  joinDate : string
}.

Record Preferences := mkPreferences {
  notifications : bool; emailUpdates : bool; autoSave : bool;
  defaultFormat : string
}.

(** ** api.js *)

(** One constructor per function of [projectsAPI], [generationAPI],
    [refinementAPI], [exportAPI] and the profile part of [authAPI]. *)
Inductive Request :=
| GetProjects (search : string) (document_type : option string)
| GetProject (id : string)
| CreateProject (projectData : ProjectData.t)
| DeleteProject (id : string)
| GenerateOutline (projectId : string) (numSections : nat)
| GenerateSectionContent (projectId sectionId : string)
| GenerateSlideContent (projectId slideId : string)
| GenerateAllSections (projectId : string)
| RefineContent (projectId sectionId prompt : string)
| AcceptRefinement (projectId sectionId : string)
| SubmitFeedback (projectId sectionId : string) (feedback : Feedback)
| ExportDocument (projectId : string)
| GetProfile
| GetStats
| GetActivities
| GetPreferences
| UpdatePreferences (preferences : Preferences).

(** The type of [response.data] ([response] itself for the export). *)
Definition payload (r : Request) : Type :=
  match r with
  | GetProjects _ _ => list Project.t
  | GetProject _ | CreateProject _ => Project.t
  | GenerateOutline _ _ | GenerateAllSections _ => Outline
  | GenerateSectionContent _ _ | GenerateSlideContent _ _ => Generated
  | RefineContent _ _ _ => RefinementResult
  | ExportDocument _ => Blob
  | GetProfile => ProfileData.t
  | GetStats => Stats
  | GetActivities => list string
  | GetPreferences => Preferences
  | DeleteProject _ | AcceptRefinement _ _ | SubmitFeedback _ _ _
  | UpdatePreferences _ => unit
  end.

(** What axios gives back: a response, or a rejection that carries the
    HTTP status when the server answered at all. *)
Inductive Response (A : Type) :=
| Ok (data : A)
| Rejected (status : option nat).
Arguments Ok {A} data.
Arguments Rejected {A} status.

(** A backend with states [B]: how it answers a request, and its next
    state. *)
Definition Backend (B : Type) : Type :=
  ∀ r : Request, B → Response (payload r) * B.

(** Thrown values: a rejected axios promise, or a [TypeError] raised by
    reading or writing a property of [undefined] or [null]. *)
Inductive Exn :=
| AxiosError (status : option nat)
| TypeError.

(** ** Visible effects *)

Inductive ToastKind := Success | Error | Loading.

Inductive Event :=
| Sent (r : Request)
| Failed (r : Request) (status : option nat)
| StorageRemove (key : string)
| Redirect (href : string)
| Toast (kind : ToastKind) (message : string)
| ToastDismiss
| Alert (message : string)
| ConsoleError
| Navigate (path : string)
| Download (filename : string) (blob : Blob).

(** ** The handler monad *)

Record World (S B : Type) := mkWorld {
  ui : S;
  srv : B;
  trace : list Event
}.
Arguments mkWorld {S B} ui srv trace.
Arguments ui {S B} w.
Arguments srv {S B} w.
Arguments trace {S B} w.

Definition M (S B A : Type) : Type := World S B → (Exn + A) * World S B.

Section monad.
Context {S B : Type}.

#[global] Instance M_ret : MRet (M S B) := λ A a w, (inr a, w).

#[global] Instance M_bind : MBind (M S B) := λ A A' f m w,
  match m w with
  | (inr a, w') => f a w'
  | (inl e, w') => (inl e, w')
  end.

Definition throw {A} (e : Exn) : M S B A := λ w, (inl e, w).

(** [try { body } catch (error) { handler }] *)
Definition try_catch {A} (body : M S B A) (handler : Exn → M S B A)
  : M S B A := λ w,
  match body w with
  | (inl e, w') => handler e w'
  | r => r
  end.

(** [... finally { fin }], for a [fin] that does not throw. *)
Definition finally {A} (body : M S B A) (fin : M S B unit) : M S B A := λ w,
  let '(r, w') := body w in
  match fin w' with
  | (inl e, w'') => (inl e, w'')
  | (inr _, w'') => (r, w'')
  end.

(** A state setter of [useState]. *)
Definition set (f : S → S) : M S B unit := λ w,
  (inr tt, mkWorld (f (ui w)) (srv w) (trace w)).

Definition emit (e : Event) : M S B unit := λ w,
  (inr tt, mkWorld (ui w) (srv w) (trace w ++ [e])).

Definition toast (k : ToastKind) (msg : string) : M S B unit :=
  emit (Toast k msg).

(** Reading a property of a value that may be [undefined] or [null]. *)
Definition deref {A} (x : option A) : M S B A :=
  match x with
  | Some a => mret a
  | None => throw TypeError
  end.

(** The response interceptor of [api.js]: a rejection with status 401
    clears the stored session and sends the browser to the login page. *)
Definition intercept (status : option nat) : list Event :=
  if decide (status = Some 401)
  then [StorageRemove "token"; StorageRemove "user"; Redirect "/login"]
  else [].

(** A call through the axios instance of [api.js]: the interceptor runs
    on a rejection and passes the rejection on to the caller.  (The request
    interceptor only adds the [Authorization] header.) *)
Definition api (be : Backend B) (r : Request) : M S B (payload r) := λ w,
  let '(res, b') := be r (srv w) in
  match res with
  | Ok data => (inr data, mkWorld (ui w) b' (trace w ++ [Sent r]))
  | Rejected status =>
      (inl (AxiosError status),
       mkWorld (ui w) b'
               (trace w ++ Sent r :: Failed r status :: intercept status))
  end.

(** Running the handler that the current render created. *)
Definition dispatch (h : S → M S B unit) (w : World S B) : World S B :=
  (h (ui w) w).2.

End monad.

(** ** NewProject.js *)

Module NewProject.

Record State := mkState {
  step : nat;
  loading : bool;
  formData : FormData.t;
  structure : list Item.t
}.

(** [useState] initial values. *)
Definition initial : State :=
  mkState 1 false (FormData.mk "" "" "" "docx") [].

Definition with_step (n : nat) (s : State) : State :=
  mkState n (loading s) (formData s) (structure s).
Definition with_loading (b : bool) (s : State) : State :=
  mkState (step s) b (formData s) (structure s).
Definition with_structure (l : list Item.t) (s : State) : State :=
  mkState (step s) (loading s) (formData s) l.

(** *** The structure editor: functions of the [structure] array *)

(** [addSection]: [now] is the value of [Date.now()]. *)
Definition addSection (now : N) (structure : list Item.t) : list Item.t :=
  let newSection :=
    Item.mk (pretty now) "" (length structure + 1) None None in
  structure ++ [newSection].

Definition updateSection (id title : string) (structure : list Item.t)
  : list Item.t :=
  (λ item, if decide (Item.id item = id) then Item.set_title title item
           else item) <$> structure.

Definition removeSection (id : string) (structure : list Item.t)
  : list Item.t :=
  filter (λ item, Item.id item ≠ id) structure.

(** The [forEach] that follows the swap in [moveSection]. *)
Definition renumber (l : list Item.t) : list Item.t :=
  imap (λ idx item, Item.set_order (idx + 1) item) l.

(** [moveSection] returns the new array when it reaches [setStructure].
    It dies with a [TypeError] when [index] is outside the array while
    [targetIndex] is inside: the swap then stores [undefined] at
    [targetIndex] and the [forEach] throws there.  The items are objects
    shared with the array in the state, so the items in front of
    [targetIndex] have been renumbered in the state by then. *)
Definition moveSection (index : Z) (direction : string)
    (structure : list Item.t) : Exn * list Item.t + list Item.t :=
  let targetIndex :=
    (if String.eqb direction "up" then index - 1 else index + 1)%Z in
  if bool_decide (0 ≤ targetIndex)%Z
     && bool_decide (targetIndex < Z.of_nat (length structure))%Z
  then
    match JS.at_index structure index, JS.at_index structure targetIndex with
    | Some a, Some b =>
        inr (renumber (<[Z.to_nat index := b]>
                        (<[Z.to_nat targetIndex := a]> structure)))
    | _, _ =>
        inl (TypeError,
             renumber (take (Z.to_nat targetIndex) structure)
             ++ drop (Z.to_nat targetIndex) structure)
    end
  else inr structure.

(** The editing operations as the buttons of the wizard issue them. *)
Inductive Op :=
| Add (now : N)
| Remove (id : string)
| Move (index : Z) (direction : string).

Definition apply (op : Op) (structure : list Item.t) : list Item.t :=
  match op with
  | Add now => addSection now structure
  | Remove id => removeSection id structure
  | Move index direction =>
      match moveSection index direction structure with
      | inr l | inl (_, l) => l
      end
  end.

Definition run (ops : list Op) (structure : list Item.t) : list Item.t :=
  foldl (λ s op, apply op s) structure ops.

(** The order indices are 1..N. *)
Definition contiguous (structure : list Item.t) : Prop :=
  Item.order <$> structure = seq 1 (length structure).

#[global] Instance contiguous_dec s : Decision (contiguous s).
Proof. unfold contiguous. apply _. Defined.

(** *** The handlers that talk to the server *)

Section handlers.
Context {B : Type} (be : Backend B).

Definition setStep n : M State B unit := set (with_step n).
Definition setLoading b : M State B unit := set (with_loading b).
Definition setStructure l : M State B unit := set (with_structure l).

Definition handleNext (s : State) : M State B unit :=
  if Nat.eqb (step s) 1
     && (negb (JS.truthy (JS.trim (FormData.title (formData s))))
         || negb (JS.truthy (JS.trim (FormData.topic (formData s)))))
  then toast Error "Please fill in all required fields"
  else setStep (step s + 1).

Definition is_docx (s : State) : bool :=
  String.eqb (FormData.document_type (formData s)) "docx".
Definition is_pptx (s : State) : bool :=
  String.eqb (FormData.document_type (formData s)) "pptx".

Definition generateAIOutline (s : State) : M State B unit :=
  setLoading true;;
  finally
    (try_catch
       (tempProject ← api be (CreateProject
          (ProjectData.mk (formData s)
             (if is_docx s then Some [] else None)
             (if is_pptx s then Some [] else None)));
        outline ← api be (GenerateOutline (Project.id tempProject) 5);
        (if is_docx s
         then setStructure (default [] (outline_sections outline))
         else setStructure (default [] (outline_slides outline)));;
        api be (DeleteProject (Project.id tempProject));;
        toast Success "AI outline generated successfully!")
       (λ error,
          toast Error "Error generating AI outline";;
          emit ConsoleError))
    (setLoading false).

Definition createProject (s : State) : M State B unit :=
  if bool_decide (length (structure s) = 0)
  then toast Error "Please add at least one section/slide"
  else
    setLoading true;;
    finally
      (try_catch
         (project ← api be (CreateProject
            (ProjectData.mk (formData s)
               (if is_docx s then Some (structure s) else None)
               (if is_pptx s then Some (structure s) else None)));
          toast Success "Project created successfully!";;
          emit (Navigate ("/projects/" +:+ Project.id project +:+ "/edit")))
         (λ error,
            toast Error "Error creating project";;
            emit ConsoleError))
      (setLoading false).

(** Every handler of the page that changes state or talks to the
    server. *)
Inductive Action :=
| HandleNext
| GenerateAIOutline
| Edit (op : Op)
| UpdateSection (id title : string)
| CreateProject'.

Definition handler (a : Action) (s : State) : M State B unit :=
  match a with
  | HandleNext => handleNext s
  | GenerateAIOutline => generateAIOutline s
  | Edit (Move index direction) =>
      match moveSection index direction (structure s) with
      | inr l => setStructure l
      | inl (e, l) => setStructure l;; throw e
      end
  | Edit op => setStructure (apply op (structure s))
  | UpdateSection id title =>
      setStructure (updateSection id title (structure s))
  | CreateProject' => createProject s
  end.

End handlers.

End NewProject.

(** ** ProjectEditor.js *)

Module ProjectEditor.

(** [refinementResults[itemId]] is [undefined] (no key), [null] (after an
    accept or a reject) or a result. *)
Record State := mkState {
  project : option Project.t;
  loading : bool;
  generating : gmap string bool;
  refinementPrompts : gmap string string;
  refinementResults : gmap string (option RefinementResult);
  comments : gmap string string
}.

Definition initial : State := mkState None true ∅ ∅ ∅ ∅.

Definition with_project p (s : State) : State :=
  mkState p (loading s) (generating s) (refinementPrompts s)
          (refinementResults s) (comments s).
Definition with_loading b (s : State) : State :=
  mkState (project s) b (generating s) (refinementPrompts s)
          (refinementResults s) (comments s).
Definition with_generating g (s : State) : State :=
  mkState (project s) (loading s) g (refinementPrompts s)
          (refinementResults s) (comments s).
Definition with_refinementPrompts m (s : State) : State :=
  mkState (project s) (loading s) (generating s) m
          (refinementResults s) (comments s).
Definition with_refinementResults m (s : State) : State :=
  mkState (project s) (loading s) (generating s) (refinementPrompts s)
          m (comments s).
Definition with_comments m (s : State) : State :=
  mkState (project s) (loading s) (generating s) (refinementPrompts s)
          (refinementResults s) m.

(** [const hasRefinement = refinementResults[itemId]] of [renderContent]:
    the pending refinement result of an item, if any. *)
Definition hasRefinement (s : State) (itemId : string)
  : option RefinementResult :=
  mjoin (refinementResults s !! itemId).

(** [project.document_type === 'docx' ? p.sections : p.slides] *)
Definition items_of (p : Project.t) : option (list Item.t) :=
  if String.eqb (Project.document_type p) "docx"
  then Project.sections p else Project.slides p.

Definition with_items (l : list Item.t) (p : Project.t) : Project.t :=
  if String.eqb (Project.document_type p) "docx"
  then Project.set_sections (Some l) p else Project.set_slides (Some l) p.


(** The content of the item [itemId] as the page shows it. *)
Definition content_of (s : State) (itemId : string) : option Content :=
  p ← project s;
  items ← items_of p;
  item ← List.find (λ item, String.eqb (Item.id item) itemId) items;
  Item.content item.

Section handlers.
Context {B : Type} (be : Backend B).

Definition setProject p : M State B unit := set (with_project p).
Definition setLoading b : M State B unit := set (with_loading b).
Definition setGenerating g : M State B unit := set (with_generating g).
Definition setRefinementPrompts m : M State B unit :=
  set (with_refinementPrompts m).
Definition setRefinementResults m : M State B unit :=
  set (with_refinementResults m).
Definition setComments m : M State B unit := set (with_comments m).

(** [id] is the route parameter. *)
Definition fetchProject (id : string) (s : State) : M State B unit :=
  finally
    (try_catch
       (projectData ← api be (GetProject id);
        setProject (Some projectData))
       (λ error,
          toast Error "Error loading project";;
          emit (Navigate "/dashboard")))
    (setLoading false).

Definition generateContent (itemId : string) (isSlide : bool) (s : State)
  : M State B unit :=
  setGenerating (<[itemId := true]> (generating s));;
  finally
    (try_catch
       (p ← deref (project s);
        result ← (if isSlide
                  then api be (GenerateSlideContent (Project.id p) itemId)
                  else api be (GenerateSectionContent (Project.id p) itemId));
        items ← deref (if isSlide then Project.slides p
                       else Project.sections p);
        match JS.findIndex (λ item, String.eqb (Item.id item) itemId) items
        with
        | Some itemIndex =>
            let items' :=
              alter (Item.set_generated (Some (gen_content result))
                       (Some (gen_generated_at result))) itemIndex items in
            setProject (Some (if isSlide
                              then Project.set_slides (Some items') p
                              else Project.set_sections (Some items') p))
        | None => mret tt
        end;;
        toast Success "Content generated successfully!")
       (λ error,
          toast Error "Error generating content";;
          emit ConsoleError))
    (setGenerating (<[itemId := false]> (generating s))).

Definition generateAllContent (s : State) : M State B unit :=
  try_catch
    (toast Loading "Generating all content...";;
     p ← deref (project s);
     result ← api be (GenerateAllSections (Project.id p));
     let updatedProject :=
       if String.eqb (Project.document_type p) "docx"
       then Project.set_sections (outline_sections result) p
       else Project.set_slides (outline_slides result) p in
     setProject (Some (Project.set_status "completed" updatedProject));;
     emit ToastDismiss;;
     toast Success "All content generated successfully!")
    (λ error,
       emit ToastDismiss;;
       toast Error "Error generating all content";;
       emit ConsoleError).

Definition refineContent (itemId : string) (s : State) : M State B unit :=
  let prompt := refinementPrompts s !! itemId in
  if negb (JS.truthy_trim prompt)
  then toast Error "Please enter a refinement prompt"
  else
    try_catch
      (p ← deref (project s);
       result ← api be (RefineContent (Project.id p) itemId
                                      (default "" prompt));
       setRefinementResults (<[itemId := Some result]> (refinementResults s));;
       setRefinementPrompts (<[itemId := ""]> (refinementPrompts s));;
       toast Success "Content refined successfully!")
      (λ error,
         toast Error "Error refining content";;
         emit ConsoleError).

Definition acceptRefinement (itemId : string) (s : State)
  : M State B unit :=
  try_catch
    (p ← deref (project s);
     api be (AcceptRefinement (Project.id p) itemId);;
     items ← deref (items_of p);
     updatedProject ←
       match JS.findIndex (λ item, String.eqb (Item.id item) itemId) items
       with
       | Some itemIndex =>
           result ← deref (hasRefinement s itemId);
           mret (with_items
                   (alter (Item.set_content (Some (refined_content result)))
                          itemIndex items) p)
       | None => mret p
       end;
     setProject (Some updatedProject);;
     setRefinementResults (<[itemId := None]> (refinementResults s));;
     toast Success "Refinement accepted!")
    (λ error, toast Error "Error accepting refinement").

Definition rejectRefinement (itemId : string) (s : State)
  : M State B unit :=
  setRefinementResults (<[itemId := None]> (refinementResults s));;
  toast Success "Refinement rejected".

Definition submitFeedback (itemId : string) (liked : option bool)
    (s : State) : M State B unit :=
  try_catch
    (p ← deref (project s);
     api be (SubmitFeedback (Project.id p) itemId
               (mkFeedback liked (JS.or_empty (comments s !! itemId))));;
     setComments (<[itemId := ""]> (comments s));;
     toast Success "Feedback submitted!")
    (λ error, toast Error "Error submitting feedback").

Definition exportDocument (s : State) : M State B unit :=
  try_catch
    (toast Loading "Preparing document for download...";;
     p ← deref (project s);
     response ← api be (ExportDocument (Project.id p));
     let filename := Project.title p +:+ "." +:+ Project.document_type p in
     emit (Download filename response);;
     emit ToastDismiss;;
     toast Success "Document downloaded successfully!")
    (λ error,
       emit ToastDismiss;;
       toast Error "Error downloading document";;
       emit ConsoleError).

(** The handlers of the page; the typing of a prompt or of a comment is
    the [onChange] of the two inputs. *)
Inductive Action :=
| FetchProject (id : string)
| GenerateContent (itemId : string) (isSlide : bool)
| GenerateAllContent
| TypePrompt (itemId value : string)
| RefineContent' (itemId : string)
| AcceptRefinement' (itemId : string)
| RejectRefinement (itemId : string)
| TypeComment (itemId value : string)
| SubmitFeedback' (itemId : string) (liked : option bool)
| ExportDocument'.

Definition handler (a : Action) (s : State) : M State B unit :=
  match a with
  | FetchProject id => fetchProject id s
  | GenerateContent itemId isSlide => generateContent itemId isSlide s
  | GenerateAllContent => generateAllContent s
  | TypePrompt itemId value =>
      setRefinementPrompts (<[itemId := value]> (refinementPrompts s))
  | RefineContent' itemId => refineContent itemId s
  | AcceptRefinement' itemId => acceptRefinement itemId s
  | RejectRefinement itemId => rejectRefinement itemId s
  | TypeComment itemId value =>
      setComments (<[itemId := value]> (comments s))
  | SubmitFeedback' itemId liked => submitFeedback itemId liked s
  | ExportDocument' => exportDocument s
  end.

End handlers.

End ProjectEditor.

(** ** Dashboard.js *)

Module Dashboard.

Record State := mkState {
  projects : list Project.t;
  loading : bool;
  searchTerm : string;
  filter : string;
  menuOpen : option string
}.

Definition initial : State := mkState [] true "" "all" None.

Definition with_projects l (s : State) : State :=
  mkState l (loading s) (searchTerm s) (filter s) (menuOpen s).
Definition with_loading b (s : State) : State :=
  mkState (projects s) b (searchTerm s) (filter s) (menuOpen s).
Definition with_menuOpen m (s : State) : State :=
  mkState (projects s) (loading s) (searchTerm s) (filter s) m.

Section handlers.
Context {B : Type} (be : Backend B).

Definition setProjects l : M State B unit := set (with_projects l).
Definition setLoading b : M State B unit := set (with_loading b).
Definition setMenuOpen m : M State B unit := set (with_menuOpen m).

Definition fetchProjects (s : State) : M State B unit :=
  finally
    (try_catch
       (projectsData ← api be (GetProjects (searchTerm s)
          (if String.eqb (filter s) "all" then None else Some (filter s)));
        setProjects projectsData)
       (λ error,
          toast Error "Error fetching projects";;
          emit ConsoleError))
    (setLoading false).

Definition handleSearch (s : State) : M State B unit :=
  setLoading true;;
  fetchProjects s.

(** [confirmed] is the answer to [window.confirm]. *)
Definition handleDelete (projectId : string) (confirmed : bool) (s : State)
  : M State B unit :=
  (if confirmed
   then
     try_catch
       (api be (DeleteProject projectId);;
        setProjects
          (List.filter (λ p, negb (String.eqb (Project.id p) projectId))
                       (projects s));;
        toast Success "Project deleted successfully")
       (λ error, toast Error "Error deleting project")
   else mret tt);;
  setMenuOpen None.

Definition handleExport (project : Project.t) (s : State)
  : M State B unit :=
  try_catch
    (toast Loading "Preparing document for download...";;
     response ← api be (ExportDocument (Project.id project));
     let filename :=
       Project.title project +:+ "." +:+ Project.document_type project in
     emit (Download filename response);;
     emit ToastDismiss;;
     toast Success "Document downloaded successfully")
    (λ error,
       emit ToastDismiss;;
       toast Error "Error downloading document";;
       emit ConsoleError);;
  setMenuOpen None.

Inductive Action :=
| FetchProjects
| HandleSearch
| HandleDelete (projectId : string) (confirmed : bool)
| HandleExport (project : Project.t).

Definition handler (a : Action) (s : State) : M State B unit :=
  match a with
  | FetchProjects => fetchProjects s
  | HandleSearch => handleSearch s
  | HandleDelete projectId confirmed => handleDelete projectId confirmed s
  | HandleExport project => handleExport project s
  end.

End handlers.

End Dashboard.

(** ** Profile.js: loading the profile page, saving the preferences

    [handleSaveProfile], which saves the form, refreshes the user of the
    authentication context (AuthContext.js) and reloads the page, is left
    out. *)

Module Profile.

(** [user] is the user of the authentication context. *)
Record State := mkState {
  user_name : option string;
  user_full_name : option string;
  user_email : option string;
  profileData : ProfileData.t;
  stats : Stats;
  activities : list string;
  preferences : Preferences
}.

Definition with_profileData d (s : State) : State :=
  mkState (user_name s) (user_full_name s) (user_email s) d (stats s)
          (activities s) (preferences s).
Definition with_stats d (s : State) : State :=
  mkState (user_name s) (user_full_name s) (user_email s) (profileData s) d
          (activities s) (preferences s).
Definition with_activities d (s : State) : State :=
  mkState (user_name s) (user_full_name s) (user_email s) (profileData s)
          (stats s) d (preferences s).
Definition with_preferences d (s : State) : State :=
  mkState (user_name s) (user_full_name s) (user_email s) (profileData s)
          (stats s) (activities s) d.

(** [a || b || ''] on strings. *)
Definition first_truthy (a b : option string) : string :=
  if JS.truthy (JS.or_empty a) then JS.or_empty a else JS.or_empty b.

Section handlers.
Context {B : Type} (be : Backend B).

Definition setProfileData d : M State B unit := set (with_profileData d).
Definition setStats d : M State B unit := set (with_stats d).
Definition setActivities d : M State B unit := set (with_activities d).
Definition setPreferences d : M State B unit := set (with_preferences d).

Definition loadProfileData (s : State) : M State B unit :=
  try_catch
    (profile ← api be GetProfile;
     setProfileData
       (ProfileData.mk
          (first_truthy (Some (ProfileData.name profile)) (user_name s))
          (first_truthy (Some (ProfileData.email profile)) (user_email s))
          (ProfileData.bio profile) (ProfileData.company profile)
          (ProfileData.title profile) (ProfileData.location profile)))
    (λ error,
       emit ConsoleError;;
       setProfileData
         (ProfileData.mk (first_truthy (user_name s) (user_full_name s))
                         (JS.or_empty (user_email s)) "" "" "" "")).

Definition fetchUserStats (s : State) : M State B unit :=
  try_catch
    (response ← api be GetStats; setStats response)
    (λ error, emit ConsoleError).

Definition fetchUserActivities (s : State) : M State B unit :=
  try_catch
    (response ← api be GetActivities; setActivities response)
    (λ error, emit ConsoleError).

Definition fetchUserPreferences (s : State) : M State B unit :=
  try_catch
    (response ← api be GetPreferences; setPreferences response)
    (λ error, emit ConsoleError).

Definition handleSavePreferences (s : State) : M State B unit :=
  try_catch
    (api be (UpdatePreferences (preferences s));;
     emit (Alert "Preferences saved successfully!"))
    (λ error,
       emit ConsoleError;;
       emit (Alert "Error saving preferences. Please try again.")).

End handlers.

End Profile.

(** ** The server *)

Module Server.

(** Modelled from the spec: the export adapter (section 4.5) is not part
    of the client sources.  [export] builds one titled part per content
    item, in order, and fails with [ExportFailed] when a content item
    lacks generated content; it has no other way to fail.  The result
    carries the MIME type of the document type. *)
Inductive ExportError := ExportFailed.

Definition items (p : Project.t) : list Item.t :=
  default [] (if String.eqb (Project.document_type p) "docx"
              then Project.sections p else Project.slides p).

(** The generated content of an item, if it has any.  The editor page
    decides it with the test [content ?] of [renderContent], which shows
    "No content generated yet" for an absent content and for the empty
    text, and renders everything else. *)
Definition truthy (c : Content) : bool :=
  match c with
  | Text s => JS.truthy s
  | Bullets _ => true
  end.

Definition generated_content (item : Item.t) : option Content :=
  c ← Item.content item; if truthy c then Some c else None.

(** An item lacks generated content. *)
Definition lacks_content (item : Item.t) : Prop := generated_content item = None.

Definition part (item : Item.t) : option (string * Content) :=
  c ← generated_content item; Some (Item.title item, c).

Fixpoint parts (l : list Item.t) : ExportError + list (string * Content) :=
  match l with
  | [] => inr []
  | item :: l' =>
      match part item with
      | None => inl ExportFailed
      | Some x =>
          match parts l' with
          | inl e => inl e
          | inr xs => inr (x :: xs)
          end
      end
  end.

Definition mime (document_type : string) : string :=
  if String.eqb document_type "docx"
  then "application/vnd.openxmlformats-officedocument.wordprocessingml.document"
  else "application/vnd.openxmlformats-officedocument.presentationml.presentation".

Definition export (p : Project.t) : ExportError + Document * string :=
  match parts (items p) with
  | inl e => inl e
  | inr xs => inr (mkDocument xs, mime (Project.document_type p))
  end.

(** Answers of the parts of the server that are not modelled: the AI
    model behind generation and refinement, and the routes the spec does
    not describe.  A script lists the answers in the order of the
    requests. *)
Inductive Scripted :=
| Fails (status : option nat)
| Projects (l : list Project.t)
| AProject (p : Project.t)
| AnOutline (o : Outline)
| SomeContent (g : Generated)
| Refined (r : RefinementResult)
| NoContent
| AProfile (d : ProfileData.t)
| SomeStats (d : Stats)
| Activities (l : list string)
| Prefs (d : Preferences).

(** A scripted answer of the wrong shape counts as a lost connection. *)
Definition answer (r : Request) (x : Scripted) : Response (payload r) :=
  match r, x with
  | _, Fails status => Rejected status
  | GetProjects _ _, Projects l => Ok l
  | GetProject _, AProject p => Ok p
  | GenerateOutline _ _, AnOutline o => Ok o
  | GenerateAllSections _, AnOutline o => Ok o
  | GenerateSectionContent _ _, SomeContent g => Ok g
  | GenerateSlideContent _ _, SomeContent g => Ok g
  | RefineContent _ _ _, Refined x => Ok x
  | AcceptRefinement _ _, NoContent => Ok tt
  | SubmitFeedback _ _ _, NoContent => Ok tt
  | UpdatePreferences _, NoContent => Ok tt
  | GetProfile, AProfile d => Ok d
  | GetStats, SomeStats d => Ok d
  | GetActivities, Activities l => Ok l
  | GetPreferences, Prefs d => Ok d
  | _, _ => Rejected None
  end.

Record State := mkState {
  projects : gmap string Project.t;
  script : list Scripted
}.

(** Modelled from the spec: the document store (section 4.2) is not part
    of the client sources.  Creating a project validates that title and
    topic are non-empty and that the document type is one of the two
    kinds (400 otherwise), stores the project as a draft under an
    identifier that is not in use, and numbers its content items 1..N
    (section 8).  Deleting removes the project and its content items and
    answers 404 when there is no such project. *)
Definition valid (d : ProjectData.t) : bool :=
  let f := ProjectData.form d in
  JS.truthy (FormData.title f) && JS.truthy (FormData.topic f)
  && (String.eqb (FormData.document_type f) "docx"
      || String.eqb (FormData.document_type f) "pptx").

Definition number (l : list Item.t) : list Item.t :=
  imap (λ idx item, Item.set_order (idx + 1) item) l.

Definition create (d : ProjectData.t) (σ : State) : Response Project.t * State :=
  if valid d then
    let f := ProjectData.form d in
    let p := Project.mk (fresh (dom (projects σ)))
               (FormData.title f) (FormData.topic f) (FormData.description f)
               (FormData.document_type f) "draft"
               (number <$> ProjectData.sections d)
               (number <$> ProjectData.slides d) in
    (Ok p, mkState (<[Project.id p := p]> (projects σ)) (script σ))
  else (Rejected (Some 400), σ).

Definition delete_project (id : string) (σ : State) : Response unit * State :=
  match projects σ !! id with
  | Some _ => (Ok tt, mkState (delete id (projects σ)) (script σ))
  | None => (Rejected (Some 404), σ)
  end.

Definition export_project (id : string) (σ : State) : Response Blob * State :=
  match projects σ !! id with
  | Some p =>
      match export p with
      | inr (doc, type) => (Ok (mkBlob doc (Some type)), σ)
      | inl ExportFailed => (Rejected (Some 422), σ)
      end
  | None => (Rejected (Some 404), σ)
  end.

Definition scripted (r : Request) (σ : State) : Response (payload r) * State :=
  match script σ with
  | x :: rest => (answer r x, mkState (projects σ) rest)
  | [] => (Rejected None, σ)
  end.

Definition respond : Backend State := λ r,
  match r with
  | CreateProject d => create d
  | DeleteProject id => delete_project id
  | ExportDocument id => export_project id
  | r => scripted r
  end.

End Server.

(** The store operations stay folded under simplification. *)
Arguments Server.create : simpl never.
Arguments Server.delete_project : simpl never.
Arguments Server.export_project : simpl never.
Arguments Server.scripted : simpl never.

(** ** Failures and notifications *)

Definition is_error_toast (e : Event) : bool :=
  match e with
  | Toast Error _ => true
  | _ => false
  end.

(** What the user sees of a failure: a toast or an alert box. *)
Definition is_notification (e : Event) : bool :=
  match e with
  | Toast _ _ | Alert _ => true
  | _ => false
  end.

(** Every failed call of the trace is followed by an error toast. *)
Fixpoint surfaced (evs : list Event) : bool :=
  match evs with
  | [] => true
  | Failed _ _ :: rest => existsb is_error_toast rest && surfaced rest
  | _ :: rest => surfaced rest
  end.

(** ** Sample data *)

Module Sample.

(** A document with one section that has content. *)
Definition intro : Item.t :=
  Item.mk "s1" "Introduction" 1 (Some (Text "Sales grew.")) None.

Definition report : Project.t :=
  Project.mk "p1" "Q1 Report" "quarterly sales" "" "docx" "draft"
             (Some [intro]) None.

(** A project created with no sections. *)
Definition empty_report : Project.t :=
  Project.mk "p2" "Q1 Report" "quarterly sales" "" "docx" "draft"
             (Some []) None.

Definition first : RefinementResult := mkRefinement (Text "Sales grew a lot.").
Definition second : RefinementResult := mkRefinement (Text "Sales rose.").

(** The editor showing [report], with a refinement prompt typed for its
    section. *)
Definition editor : ProjectEditor.State :=
  ProjectEditor.mkState (Some report) false ∅ {["s1" := "Make it longer"]} ∅ ∅.

Definition dashboard : Dashboard.State :=
  Dashboard.mkState [report] false "" "all" None.

Definition wizard : NewProject.State :=
  NewProject.mkState 2 false
    (FormData.mk "Q1 Report" "quarterly sales" "" "docx") [].

Definition profile : Profile.State :=
  Profile.mkState (Some "Ada") None (Some "a@x.com")
    (ProfileData.mk "" "" "" "" "" "") (mkStats 0 0 0 "") []
    (mkPreferences true false true "word").

(** A server that stores [report] and answers from a script. *)
Definition server (script : list Server.Scripted) : Server.State :=
  Server.mkState {["p1" := report]} script.


Definition outline : Outline :=
  mkOutline (Some [Item.mk "o1" "Overview" 1 None None;
                   Item.mk "o2" "Results" 2 None None]) None.

End Sample.

(** ** Views used in the statements *)

(** Everything of an item but its order index. *)
Definition unordered (item : Item.t) : Item.t := Item.set_order 0 item.

(** The body of the request by which [generateAIOutline] creates its
    temporary project. *)
Definition tempData (s : NewProject.State) : ProjectData.t :=
  ProjectData.mk (NewProject.formData s)
    (if NewProject.is_docx s then Some [] else None)
    (if NewProject.is_pptx s then Some [] else None).

(** The list of items that [generateContent] looks the item up in. *)
Definition generated_in (isSlide : bool) (p : Project.t)
  : option (list Item.t) :=
  if isSlide then Project.slides p else Project.sections p.

Definition is_download (e : Event) : bool :=
  match e with
  | Download _ _ => true
  | _ => false
  end.

Definition is_failed (e : Event) : bool :=
  match e with
  | Failed _ _ => true
  | _ => false
  end.

(** ** More proof automation *)

(** Closes a case in which the same request is both answered and
    refused. *)
Ltac refused :=
  intros; simplify_eq/=;
  match goal with
  | H1 : ?be ?r ?b = (Ok _, _), H2 : ?be ?r ?b = (Rejected _, _) |- _ =>
      by rewrite H2 in H1
  end.

(** ** More sample data *)

Module Sample2.

(** The wizard of the sample with one untitled section. *)
Definition wizard_with_section : NewProject.State :=
  NewProject.mkState 2 false
    (FormData.mk "Q1 Report" "quarterly sales" "" "docx")
    (NewProject.addSection 1 []).

(** The project that the sample server creates for the outline. *)
Definition temporary : Project.t :=
  Project.mk "0" "Q1 Report" "quarterly sales" "" "docx" "draft" (Some []) None.

Definition generated : Generated :=
  mkGenerated (Text "Sales grew by a tenth.") "2025-01-01T00:00:00".

(** A server without a store.  It answers the creation of a project with
    [temporary], generation with fixed answers, the outline only while the
    model behind it is up, which is its state, and an accept with no
    content; it refuses everything else, deletion included. *)
Definition stateless : Backend bool := λ r up,
  match r as r' return Response (payload r') * bool with
  | CreateProject _ => (Ok temporary, up)
  | GenerateOutline _ _ =>
      (if up then Ok Sample.outline else Rejected (Some 502), up)
  | GenerateSectionContent _ _ => (Ok generated, up)
  | GenerateAllSections _ => (Ok (mkOutline None None), up)
  | AcceptRefinement _ _ => (Ok (), up)
  | _ => (Rejected (Some 500), up)
  end.

End Sample2.

(** ** Authentication: api.js, authService.js, AuthContext.js

    The session lives in [localStorage]: the request interceptor of
    [api.js] reads the token from it for every request, and the response
    interceptor, [authAPI], [AuthService] and the authentication context
    write it.  Here the storage is part of the state, and the backend sees
    the [Authorization] header of each request. *)

Module Auth.

Record User := mkUser {
  id : string;
  email : string;
  full_name : string
}.

Record Credentials := mkCredentials {
  cred_email : string;
  cred_password : string
}.

Record Registration := mkRegistration {
  reg_email : string;
  reg_password : string;
  reg_full_name : string
}.

(** The answer to a login: [access_token] may be missing. *)
Record LoginData := mkLoginData {
  access_token : option string;
  login_user : option User
}.

(** The functions of [authAPI] used by the service and the context. *)
Inductive Call :=
| Register (userData : Registration)
| Login (credentials : Credentials)
| GetCurrentUser
| UpdateProfile (profileData : ProfileData.t)
| Logout.

Definition payload (c : Call) : Type :=
  match c with
  | Register _ | GetCurrentUser | UpdateProfile _ => User
  | Login _ => LoginData
  | Logout => unit
  end.

(** A rejection carries the status and [error.response.data.detail] when
    the server sent them. *)
Inductive Reply (A : Type) :=
| Fine (data : A)
| Refused (status : option nat) (detail : option string).
Arguments Fine {A} data.
Arguments Refused {A} status detail.

(** The backend sees the call and its [Authorization] header. *)
Definition Backend (B : Type) : Type :=
  ∀ c : Call, option string → B → Reply (payload c) * B.

Inductive Thrown :=
| AxiosError (status : option nat) (detail : option string)
| ClerkError.

(** The state of [AuthProvider]. *)
Record Context := mkContext {
  user : option User;
  token : option string;
  loading : bool
}.

(** The browser: the storage, the address set by a redirect, the state of
    the provider and of the login form, the server, the requests sent with
    their [Authorization] header, and what the pages showed. *)
Record World (B : Type) := mkWorld {
  storage : gmap string string;
  href : option string;
  ctx : Context;
  submitLoading : bool;
  srv : B;
  sent : list (Call * option string);
  shown : list Event
}.
Arguments mkWorld {B} storage href ctx submitLoading srv sent shown.
Arguments submitLoading {B} w.
Arguments storage {B} w.
Arguments href {B} w.
Arguments ctx {B} w.
Arguments srv {B} w.
Arguments sent {B} w.
Arguments shown {B} w.

Definition M (B A : Type) : Type := World B → (Thrown + A) * World B.

Section monad.
Context {B : Type}.

#[global] Instance M_ret : MRet (M B) := λ A a w, (inr a, w).

#[global] Instance M_bind : MBind (M B) := λ A A' f m w,
  match m w with
  | (inr a, w') => f a w'
  | (inl e, w') => (inl e, w')
  end.

Definition throw {A} (e : Thrown) : M B A := λ w, (inl e, w).

Definition try_catch {A} (body : M B A) (handler : Thrown → M B A) : M B A :=
  λ w,
  match body w with
  | (inl e, w') => handler e w'
  | r => r
  end.

Definition finally {A} (body : M B A) (fin : M B unit) : M B A := λ w,
  let '(r, w') := body w in
  match fin w' with
  | (inl e, w'') => (inl e, w'')
  | (inr _, w'') => (r, w'')
  end.

(** [localStorage.setItem] and [localStorage.removeItem]. *)
Definition setItem (key value : string) : M B unit := λ w,
  (inr tt,
   mkWorld (<[key := value]> (storage w)) (href w) (ctx w) (submitLoading w)
           (srv w) (sent w) (shown w)).

Definition removeItem (key : string) : M B unit := λ w,
  (inr tt,
   mkWorld (delete key (storage w)) (href w) (ctx w) (submitLoading w)
           (srv w) (sent w) (shown w)).

Definition setContext (f : Context → Context) : M B unit := λ w,
  (inr tt,
   mkWorld (storage w) (href w) (f (ctx w)) (submitLoading w) (srv w)
           (sent w) (shown w)).

Definition setUser (u : option User) : M B unit :=
  setContext (λ c, mkContext u (token c) (loading c)).
Definition setToken (t : option string) : M B unit :=
  setContext (λ c, mkContext (user c) t (loading c)).
Definition setLoading (b : bool) : M B unit :=
  setContext (λ c, mkContext (user c) (token c) b).

Definition show (e : Event) : M B unit := λ w,
  (inr tt,
   mkWorld (storage w) (href w) (ctx w) (submitLoading w) (srv w) (sent w)
           (shown w ++ [e])).

Definition setSubmitLoading (b : bool) : M B unit := λ w,
  (inr tt,
   mkWorld (storage w) (href w) (ctx w) b (srv w) (sent w) (shown w)).

(** The request interceptor: the header of the next request. *)
Definition authorization (storage : gmap string string) : option string :=
  match storage !! "token" with
  | Some token => if JS.truthy token then Some ("Bearer " +:+ token) else None
  | None => None
  end.

(** A call through the axios instance, with both interceptors. *)
Definition api (be : Backend B) (c : Call) : M B (payload c) := λ w,
  let header := authorization (storage w) in
  let '(res, b') := be c header (srv w) in
  let sent' := sent w ++ [(c, header)] in
  match res with
  | Fine data =>
      (inr data,
       mkWorld (storage w) (href w) (ctx w) (submitLoading w) b' sent'
               (shown w))
  | Refused status detail =>
      (inl (AxiosError status detail),
       if decide (status = Some 401)
       then mkWorld (delete "user" (delete "token" (storage w)))
                    (Some "/login") (ctx w) (submitLoading w) b' sent'
                    (shown w)
       else mkWorld (storage w) (href w) (ctx w) (submitLoading w) b' sent'
                    (shown w))
  end.

(** [error.response?.data?.detail || fallback] *)
Definition detail_or (fallback : string) (e : Thrown) : string :=
  match e with
  | AxiosError _ (Some detail) => if JS.truthy detail then detail else fallback
  | _ => fallback
  end.

(** *** authAPI *)

Definition authAPI_login (be : Backend B) (credentials : Credentials)
  : M B LoginData :=
  response ← api be (Login credentials);
  (if JS.truthy (JS.or_empty (access_token response))
   then setItem "token" (JS.or_empty (access_token response))
   else mret tt);;
  mret response.

Definition authAPI_logout (be : Backend B) : M B unit :=
  api be Logout;;
  removeItem "token";;
  removeItem "user".

(** *** AuthContext.js

    [updateUserProfile] merges the answer into the user; the answer is a
    whole user here, so the merge is the answer. *)

(** [{ success: true, user }] or [{ success: false, error }]. *)
Inductive Result :=
| Succeeded (user : User)
| NotSucceeded (error : string).

(** [String(x)] of a token that may be [undefined]. *)
Definition to_string (x : option string) : string := default "undefined" x.

Definition login (be : Backend B) (credentials : Credentials) : M B Result :=
  try_catch
    (response ← authAPI_login be credentials;
     setToken (access_token response);;
     setItem "token" (to_string (access_token response));;
     userData ← api be GetCurrentUser;
     setUser (Some userData);;
     mret (Succeeded userData))
    (λ error,
       show ConsoleError;;
       mret (NotSucceeded (detail_or "Login failed" error))).

Definition register (be : Backend B) (userData : Registration) : M B Result :=
  try_catch
    (newUser ← api be (Register userData);
     login be (mkCredentials (reg_email userData) (reg_password userData));;
     mret (Succeeded newUser))
    (λ error,
       show ConsoleError;;
       mret (NotSucceeded (detail_or "Registration failed" error))).

(** [clerk] tells whether the user is signed in through Clerk and, if so,
    whether its [signOut] resolves. *)
Definition logout (be : Backend B) (clerk : option bool) : M B unit :=
  finally
    (try_catch
       (match clerk with
        | Some true => mret tt
        | Some false => throw ClerkError
        | None => mret tt
        end;;
        authAPI_logout be)
       (λ error, show ConsoleError))
    (setUser None;;
     setToken None;;
     removeItem "token";;
     removeItem "user").

(** The effect that runs when the provider mounts; [clerkUser] is the
    user signed in through Clerk, if any. *)
Definition initAuth (be : Backend B) (clerkUser : option User) : M B unit :=
  λ w,
  match clerkUser with
  | Some u => (setUser (Some u);; setLoading false) w
  | None =>
      ((if JS.truthy (JS.or_empty (token (ctx w)))
        then
          try_catch
            (userData ← api be GetCurrentUser; setUser (Some userData))
            (λ error,
               show ConsoleError;;
               removeItem "token";;
               setToken None)
        else mret tt);;
       setLoading false) w
  end.

Definition updateUserProfile (be : Backend B) (profileData : ProfileData.t)
  : M B Result :=
  try_catch
    (updatedUser ← api be (UpdateProfile profileData);
     setUser (Some updatedUser);;
     mret (Succeeded updatedUser))
    (λ error,
       show ConsoleError;;
       mret (NotSucceeded (detail_or "Profile update failed" error))).

Definition isAuthenticated (c : Context) : bool :=
  match user c with Some _ => true | None => false end.

(** *** authService.js

    [key] is [process.env.REACT_APP_TOKEN_STORAGE_KEY]. *)

Definition AuthService_login (be : Backend B) (key : string)
    (credentials : Credentials) : M B (option (option User)) :=
  response ← authAPI_login be credentials;
  if JS.truthy (JS.or_empty (access_token response))
  then setItem key (JS.or_empty (access_token response));;
       mret (Some (login_user response))
  else mret None.

(** [session] is the outcome of [window.Clerk.session.getToken()] when
    there is a Clerk session. *)
Definition AuthService_getToken (key : string)
    (session : option (Thrown + option string)) : M B (option string) := λ w,
  match session with
  | Some (inr t) => (inr t, w)
  | _ => (inr (storage w !! key), w)
  end.

(** The sign-out of Clerk that follows is caught when it fails and
    touches nothing of the state. *)
Definition AuthService_logout (key : string) : M B unit :=
  removeItem key.

Definition AuthService_getCurrentUser (be : Backend B) (key : string)
    (session : option (Thrown + option string)) : M B (option User) :=
  t ← AuthService_getToken key session;
  if JS.truthy (JS.or_empty t)
  then try_catch (u ← api be GetCurrentUser; mret (Some u))
                 (λ error, mret None)
  else mret None.

(** *** Login.js and Header.js *)


Definition handleLogout (be : Backend B) (clerk : option bool) : M B unit :=
  try_catch
    (logout be clerk;;
     show (Toast Success "Logged out successfully");;
     show (Navigate "/login"))
    (λ error, show (Toast Error "Error logging out")).

Definition run {A} (m : M B A) (w : World B) : World B := (m w).2.

End monad.

End Auth.

(** A server with one account, for the examples: it hands out one token
    and knows the user behind it. *)
Module AuthSample.

Definition ada : Auth.User := Auth.mkUser "u1" "a@x.com" "Ada".
Definition secret : Auth.Credentials := Auth.mkCredentials "a@x.com" "pw123456".

Definition respond : Auth.Backend unit := λ c header σ,
  match c with
  | Auth.Login credentials =>
      if String.eqb (Auth.cred_email credentials) "a@x.com"
         && String.eqb (Auth.cred_password credentials) "pw123456"
      then (Auth.Fine (Auth.mkLoginData (Some "t0k") (Some ada)), σ)
      else (Auth.Refused (Some 400) (Some "Incorrect email or password"), σ)
  | Auth.Register userData =>
      if String.eqb (Auth.reg_email userData) "a@x.com"
      then (Auth.Refused (Some 400) (Some "Email already registered"), σ)
      else (Auth.Fine (Auth.mkUser "u2" (Auth.reg_email userData)
                         (Auth.reg_full_name userData)), σ)
  | Auth.GetCurrentUser =>
      if decide (header = Some "Bearer t0k") then (Auth.Fine ada, σ)
      else (Auth.Refused (Some 401) (Some "Could not validate credentials"), σ)
  | Auth.UpdateProfile _ =>
      if decide (header = Some "Bearer t0k") then (Auth.Fine ada, σ)
      else (Auth.Refused (Some 401) None, σ)
  | Auth.Logout => (Auth.Fine tt, σ)
  end.


(** A browser that has never logged in. *)
Definition fresh : Auth.World unit :=
  Auth.mkWorld ∅ None (Auth.mkContext None None true) false tt [] [].

(** A browser with a token that the server does not know. *)
Definition stale : Auth.World unit :=
  Auth.mkWorld {["token" := "old"]} None
               (Auth.mkContext None (Some "old") true) false tt [] [].

End AuthSample.

(** Unfolds the monad of the authentication model. *)
Ltac aunfold :=
  unfold Auth.run, Auth.try_catch, Auth.finally, Auth.setItem,
         Auth.removeItem, Auth.setUser, Auth.setToken, Auth.setLoading,
         Auth.setSubmitLoading, Auth.setContext, Auth.show, Auth.throw,
         Auth.api, mbind, Auth.M_bind, mret, Auth.M_ret.

(** ** Proof automation *)

(** Unfolds the handler monad; what remains is a case analysis on the
  answers of the backend and on the tests of the handler. *)
Ltac munfold :=
unfold dispatch, try_catch, finally, set, toast, emit, deref, throw, api,
       mbind, M_bind, mret, M_ret.

(** Inverts the membership of an event in an explicit trace. *)
Ltac in_trace H :=
  unfold intercept in H; try case_decide;
  repeat (apply elem_of_cons in H as [H|H]; simplify_eq/=);
  try (by apply elem_of_nil in H).


(** Runs a handler on every answer of the backend and closes each case by
    computing the events it added to the trace. *)
Ltac handler_cases :=
  munfold; cbn; repeat case_match; simplify_eq/=;
  rewrite <- ?app_assoc;
  first [ eexists; (split; [reflexivity|]);
          cbn; unfold intercept; repeat case_decide; reflexivity
        | exists []; by rewrite app_nil_r ].

(** * Properties *)

(** ** The structure editor *)

Section structure.
Import NewProject.

Lemma renumber_from (k : nat) (l : list Item.t) :
  Item.order <$> imap (λ idx item, Item.set_order (idx + k) item) l
  = seq k (length l).
Proof.
  revert k. induction l as [|x l IH]; intros k; [reflexivity|].
  rewrite imap_cons. cbn [fmap list_fmap length seq]. f_equal.
  rewrite <- (IH (S k)). f_equal. apply imap_ext.
  intros i y _. cbn. f_equal. lia.
Qed.

Lemma renumber_contiguous (l : list Item.t) : contiguous (renumber l).
Proof.
  unfold contiguous, renumber. rewrite length_imap. apply renumber_from.
Qed.

(** Appending keeps the indices 1..N. *)
Lemma addSection_contiguous (now : N) (s : list Item.t) :
  contiguous s → contiguous (addSection now s).
Proof.
  unfold contiguous, addSection. intros H.
  rewrite fmap_app, length_app, H. cbn.
  rewrite seq_app. cbn. do 2 f_equal. lia.
Qed.

(** A move that returns leaves the array alone or renumbers all of it. *)
Lemma moveSection_contiguous (index : Z) (direction : string)
    (s l : list Item.t) :
  moveSection index direction s = inr l → contiguous s → contiguous l.
Proof.
  unfold moveSection. intros H Hs.
  repeat case_match; simplify_eq; auto using renumber_contiguous.
Qed.

Lemma moveSection_length (index : Z) (direction : string)
    (s l : list Item.t) :
  moveSection index direction s = inr l → length l = length s.
Proof.
  unfold moveSection, renumber. intros H.
  repeat case_match; simplify_eq; auto.
  all: by rewrite length_imap, !length_insert.
Qed.

(** The buttons of the wizard pass an index of the array, with "up"
    disabled on the first row and "down" on the last: such a move
    returns. *)
Lemma moveSection_in_range (index : Z) (direction : string)
    (s : list Item.t) :
  (0 ≤ index < Z.of_nat (length s))%Z →
  ∃ l, moveSection index direction s = inr l.
Proof.
  intros Hi. unfold moveSection.
  destruct (_ && _) eqn:Hguard; [|eauto].
  apply andb_true_iff in Hguard as [H0 H1].
  apply bool_decide_eq_true in H0, H1.
  unfold JS.at_index. rewrite !bool_decide_eq_true_2 by lia.
  destruct (lookup_lt_is_Some_2 s (Z.to_nat index)) as [a ->]; [lia|].
  set (t := Z.to_nat _).
  destruct (lookup_lt_is_Some_2 s t) as [b ->]; [subst t; lia|].
  eauto.
Qed.

(** C1.  The order indices do not stay 1..N under removal:
    adding three sections and removing the second one leaves the indices
    1 and 3.  [removeSection] filters the array and does not renumber,
    while [moveSection] renumbers after every swap. *)
Theorem removeSection_leaves_gap :
  let structure := run [Add 1; Add 2; Add 3; Remove "2"] [] in
  Item.id <$> structure = ["1"; "3"]
  ∧ Item.order <$> structure = [1; 3]
  ∧ ¬ contiguous structure.
Proof.
  vm_compute. split; [reflexivity|split; [reflexivity|discriminate]].
Qed.

(** The next insertion then repeats an index. *)
Example addSection_after_remove :
  Item.order <$> run [Add 1; Add 2; Add 3; Remove "2"; Add 4] [] = [1; 3; 3].
Proof. vm_compute. reflexivity. Qed.

(** A move repairs the numbering. *)
Example moveSection_after_remove :
  Item.order <$> run [Add 1; Add 2; Add 3; Remove "2"; Move 0 "down"] []
  = [1; 2].
Proof. vm_compute. reflexivity. Qed.

(** A move from the slot behind the array dies in the renumbering. *)
Example moveSection_behind_array :
  moveSection 2 "up" (run [Add 1; Add 2] [])
  = inl (TypeError, run [Add 1; Add 2] []).
Proof. vm_compute. reflexivity. Qed.

End structure.

(** ** The project editor *)

Section editor.
Import ProjectEditor.
Context {B : Type} (be : Backend B).

Lemma find_alter {A} (p : A → bool) (f : A → A) (l : list A) (i : nat) :
  (∀ x, p (f x) = p x) →
  JS.findIndex p l = Some i →
  ∃ x, List.find p l = Some x ∧ List.find p (alter f i l) = Some (f x).
Proof.
  intros Hf. revert i. induction l as [|y l IH]; intros i; cbn; [done|].
  destruct (p y) eqn:Hy.
  - intros [= <-]. cbn. rewrite Hf, Hy. eauto.
  - destruct (JS.findIndex p l) as [j|]; cbn; [|done].
    intros [= <-]. cbn. rewrite Hy. eauto.
Qed.

Lemma items_of_with_items (l : list Item.t) (p : Project.t) :
  items_of (with_items l p) = Some l.
Proof.
  unfold items_of, with_items.
  destruct (String.eqb (Project.document_type p) "docx") eqn:H; cbn;
    by rewrite H.
Qed.

(** C4.  [rejectRefinement] cannot fail: both of two rejections in a row
    report success.  The second one changes nothing, neither of them
    touches the project or the server, and when nothing is pending for the
    item the pending result of every item is what it was. *)
Theorem reject_idempotent (w : World State B) (itemId : string) :
  let w1 := dispatch (rejectRefinement itemId) w in
  let w2 := dispatch (rejectRefinement itemId) w1 in
  trace w1 = trace w ++ [Toast Success "Refinement rejected"]
  ∧ trace w2 = trace w1 ++ [Toast Success "Refinement rejected"]
  ∧ ui w2 = ui w1
  ∧ project (ui w1) = project (ui w)
  ∧ (∀ j, content_of (ui w2) j = content_of (ui w) j)
  ∧ srv w2 = srv w
  ∧ hasRefinement (ui w2) itemId = None
  ∧ (hasRefinement (ui w) itemId = None →
     ∀ j, hasRefinement (ui w1) j = hasRefinement (ui w) j).
Proof.
  unfold rejectRefinement, setRefinementResults. munfold. cbn.
  unfold with_refinementResults, hasRefinement. cbn.
  rewrite insert_insert_eq, lookup_insert_eq.
  repeat split; try done.
  intros H j. destruct (decide (itemId = j)) as [->|Hne].
  - by rewrite lookup_insert_eq, H.
  - by rewrite lookup_insert_ne.
Qed.

(** What [submitFeedback] does when a project is loaded: it sends the
    feedback record, made of the sentiment and of the comment typed for
    the item, and the server goes on from its answer; on an answer it
    clears the comment and announces the success, on a refusal it shows
    the error. *)
Lemma submitFeedback_run (w : World State B) (itemId : string)
    (liked : option bool) (p : Project.t) :
  project (ui w) = Some p →
  let request := SubmitFeedback (Project.id p) itemId
                   (mkFeedback liked (JS.or_empty (comments (ui w) !! itemId))) in
  dispatch (submitFeedback be itemId liked) w
  = match (be request (srv w)).1 with
    | Ok _ =>
        mkWorld (with_comments (<[itemId := ""]> (comments (ui w))) (ui w))
                (be request (srv w)).2
                (trace w ++ [Sent request; Toast Success "Feedback submitted!"])
    | Rejected status =>
        mkWorld (ui w) (be request (srv w)).2
                (trace w ++ Sent request :: Failed request status
                         :: intercept status
                         ++ [Toast Error "Error submitting feedback"])
    end.
Proof.
  intros Hp. unfold submitFeedback, setComments. munfold. rewrite Hp. cbn.
  destruct (be _ _) as [[[]|status] b']; cbn.
  - by rewrite <- !app_assoc.
  - by rewrite <- !app_assoc.
Qed.

(** C8.  [submitFeedback] hands one feedback record to the server and
    changes nothing else.  With a project loaded, the first thing it does
    is to send the record, made of the item, the sentiment and the comment
    typed for the item, and the server goes on from its answer to that
    request; when the server answers, the trace grows by exactly the
    request and the success notification.  Whatever the sentiment, the
    comment and the answer, the project, hence the content of every item,
    and the refinement results and prompts stay as they are, and no other
    request is sent. *)
Theorem submitFeedback_frame (w : World State B) (itemId : string)
    (liked : option bool) :
  let w' := dispatch (submitFeedback be itemId liked) w in
  project (ui w') = project (ui w)
  ∧ refinementResults (ui w') = refinementResults (ui w)
  ∧ refinementPrompts (ui w') = refinementPrompts (ui w)
  ∧ (∀ j, content_of (ui w') j = content_of (ui w) j)
  ∧ (∀ j, hasRefinement (ui w') j = hasRefinement (ui w) j)
  ∧ (∃ evs, trace w' = trace w ++ evs
      ∧ ∀ r, Sent r ∈ evs →
          ∃ p, project (ui w) = Some p
            ∧ r = SubmitFeedback (Project.id p) itemId
                    (mkFeedback liked (JS.or_empty (comments (ui w) !! itemId))))
  ∧ (∀ p, project (ui w) = Some p →
       let request := SubmitFeedback (Project.id p) itemId
                        (mkFeedback liked (JS.or_empty (comments (ui w) !! itemId))) in
       srv w' = (be request (srv w)).2
       ∧ (∃ evs, trace w' = trace w ++ Sent request :: evs
                 ∧ ∀ r, Sent r ∉ evs)
       ∧ (∀ b', be request (srv w) = (Ok (), b') →
            w' = mkWorld (with_comments (<[itemId := ""]> (comments (ui w))) (ui w))
                         b'
                         (trace w ++ [Sent request;
                                      Toast Success "Feedback submitted!"])))
  ∧ (project (ui w) = None →
       srv w' = srv w
       ∧ trace w' = trace w ++ [Toast Error "Error submitting feedback"]).
Proof.
  cbv zeta. destruct (project (ui w)) as [p|] eqn:Hp.
  - rewrite (submitFeedback_run w itemId liked p Hp). cbv zeta.
    destruct (be _ _) as [[[]|status] b'] eqn:Hbe; cbn.
    + do 5 (split; [done|]). split; [|split; [|done]].
      * eexists. split; [reflexivity|]. intros r Hr. in_trace Hr; eauto.
      * intros p' [= <-]. rewrite Hbe. cbn. split; [done|]. split.
        -- eexists. split; [reflexivity|]. intros r Hr. in_trace Hr.
        -- by intros b'' [= <-].
    + do 5 (split; [done|]). split; [|split; [|done]].
      * eexists. split; [reflexivity|]. intros r Hr. in_trace Hr; eauto.
      * intros p' [= <-]. rewrite Hbe. cbn. split; [done|]. split.
        -- eexists. split; [reflexivity|]. intros r Hr. in_trace Hr.
        -- intros b'' Hb''. discriminate Hb''.
  - unfold submitFeedback, setComments. munfold. rewrite Hp. cbn.
    do 5 (split; [done|]). split; [|split; [done|]].
    + eexists. split; [reflexivity|]. intros r Hr. in_trace Hr.
    + by intros _.
Qed.



(** A refinement whose prompt is not blank and which the server answers
    stores the answer as the pending result of the item and clears the
    prompt. *)
Lemma refineContent_ok (w : World State B) (itemId : string)
    (p : Project.t) (result : RefinementResult) (b' : B) :
  project (ui w) = Some p →
  JS.truthy_trim (refinementPrompts (ui w) !! itemId) = true →
  be (RefineContent (Project.id p) itemId
        (default "" (refinementPrompts (ui w) !! itemId))) (srv w)
  = (Ok result, b') →
  dispatch (refineContent be itemId) w
  = mkWorld
      (with_refinementPrompts (<[itemId := ""]> (refinementPrompts (ui w)))
         (with_refinementResults
            (<[itemId := Some result]> (refinementResults (ui w))) (ui w)))
      b'
      (trace w
       ++ [Sent (RefineContent (Project.id p) itemId
                   (default "" (refinementPrompts (ui w) !! itemId)));
           Toast Success "Content refined successfully!"]).
Proof.
  intros Hp Ht Hbe.
  unfold refineContent, setRefinementResults, setRefinementPrompts. munfold.
  rewrite Ht, Hp. cbn. rewrite Hbe. cbn. by rewrite <- app_assoc.
Qed.

(** An accepted refinement of an item of the project puts the pending
    content into the item and clears the pending result. *)
Lemma acceptRefinement_ok (w : World State B) (itemId : string)
    (p : Project.t) (items : list Item.t) (itemIndex : nat)
    (result : RefinementResult) (b' : B) :
  project (ui w) = Some p →
  items_of p = Some items →
  JS.findIndex (λ item, String.eqb (Item.id item) itemId) items
  = Some itemIndex →
  hasRefinement (ui w) itemId = Some result →
  be (AcceptRefinement (Project.id p) itemId) (srv w) = (Ok tt, b') →
  dispatch (acceptRefinement be itemId) w
  = mkWorld
      (with_refinementResults (<[itemId := None]> (refinementResults (ui w)))
         (with_project
            (Some (with_items
                     (alter (Item.set_content (Some (refined_content result)))
                            itemIndex items) p))
            (ui w)))
      b'
      (trace w
       ++ [Sent (AcceptRefinement (Project.id p) itemId);
           Toast Success "Refinement accepted!"]).
Proof.
  intros Hp Hitems Hidx Hres Hbe.
  unfold acceptRefinement, setProject, setRefinementResults. munfold.
  rewrite Hp, Hitems, Hidx, Hres. cbn. rewrite Hbe. cbn.
  by rewrite <- app_assoc.
Qed.

(** C2.  The pending refinement result of an item is one entry of
    [refinementResults].  When the item is refined twice (the prompt is
    typed again in between, since a refinement clears it) and the server
    answers both requests, the second answer replaces the first as the
    pending result, and an accept that the server answers puts the content
    of the second answer into the item and leaves nothing pending. *)
Theorem refine_twice_then_accept (w : World State B) (itemId prompt2 : string)
    (p : Project.t) (items : list Item.t) (itemIndex : nat)
    (r1 r2 : RefinementResult) (b1 b2 b3 : B) :
  project (ui w) = Some p →
  items_of p = Some items →
  JS.findIndex (λ item, String.eqb (Item.id item) itemId) items
  = Some itemIndex →
  JS.truthy_trim (refinementPrompts (ui w) !! itemId) = true →
  JS.truthy_trim (Some prompt2) = true →
  be (RefineContent (Project.id p) itemId
        (default "" (refinementPrompts (ui w) !! itemId))) (srv w)
  = (Ok r1, b1) →
  be (RefineContent (Project.id p) itemId prompt2) b1 = (Ok r2, b2) →
  be (AcceptRefinement (Project.id p) itemId) b2 = (Ok tt, b3) →
  let w1 := dispatch (refineContent be itemId) w in
  let w2 := dispatch (refineContent be itemId)
              (dispatch (handler be (TypePrompt itemId prompt2)) w1) in
  let w3 := dispatch (acceptRefinement be itemId) w2 in
  hasRefinement (ui w1) itemId = Some r1
  ∧ hasRefinement (ui w2) itemId = Some r2
  ∧ content_of (ui w2) itemId = content_of (ui w) itemId
  ∧ content_of (ui w3) itemId = Some (refined_content r2)
  ∧ hasRefinement (ui w3) itemId = None.
Proof.
  intros Hp Hitems Hidx Ht1 Ht2 Hbe1 Hbe2 Hbe3 w1 w2 w3.
  pose proof (refineContent_ok w itemId p r1 b1 Hp Ht1 Hbe1) as Hw1.
  fold w1 in Hw1.
  set (w1' := dispatch (handler be (TypePrompt itemId prompt2)) w1) in *.
  assert (Hui : ui w1'
    = with_refinementPrompts
        (<[itemId := prompt2]> (<[itemId := ""]> (refinementPrompts (ui w))))
        (ui w1)) by (subst w1'; by rewrite Hw1).
  assert (Hsrv : srv w1' = b1) by (subst w1'; by rewrite Hw1).
  assert (Hlk : refinementPrompts (ui w1') !! itemId = Some prompt2).
  { rewrite Hui. cbn. by rewrite lookup_insert_eq. }
  assert (Hp1 : project (ui w1') = Some p) by (by rewrite Hui, Hw1).
  pose proof (refineContent_ok w1' itemId p r2 b2 Hp1) as Hw2.
  rewrite Hlk, Hsrv in Hw2. specialize (Hw2 Ht2 Hbe2). fold w2 in Hw2.
  assert (Hres2 : hasRefinement (ui w2) itemId = Some r2).
  { rewrite Hw2. unfold hasRefinement. cbn. by rewrite lookup_insert_eq. }
  assert (Hp2 : project (ui w2) = Some p) by (by rewrite Hw2).
  assert (Hsrv2 : srv w2 = b2) by (by rewrite Hw2).
  pose proof (acceptRefinement_ok w2 itemId p items itemIndex r2 b3
                Hp2 Hitems Hidx Hres2) as Hw3.
  rewrite Hsrv2 in Hw3. specialize (Hw3 Hbe3). fold w3 in Hw3.
  split; [|split; [done|split; [|split]]].
  - rewrite Hw1. unfold hasRefinement. cbn. by rewrite lookup_insert_eq.
  - unfold content_of. by rewrite Hp2, Hp.
  - rewrite Hw3. unfold content_of. cbn. rewrite items_of_with_items. cbn.
    destruct (find_alter (λ item, String.eqb (Item.id item) itemId)
                (Item.set_content (Some (refined_content r2))) items itemIndex)
      as (x & _ & ->); [done|done|done].
  - rewrite Hw3. unfold hasRefinement. cbn. by rewrite lookup_insert_eq.
Qed.

(** The export of the editor when the server answers it. *)
Lemma exportDocument_ok (w : World State B) (p : Project.t)
    (response : Blob) (b' : B) :
  project (ui w) = Some p →
  be (ExportDocument (Project.id p)) (srv w) = (Ok response, b') →
  dispatch (exportDocument be) w
  = mkWorld (ui w) b'
      (trace w
       ++ [Toast Loading "Preparing document for download...";
           Sent (ExportDocument (Project.id p));
           Download (Project.title p +:+ "." +:+ Project.document_type p) response;
           ToastDismiss;
           Toast Success "Document downloaded successfully!"]).
Proof.
  intros Hp Hbe. unfold exportDocument. munfold. cbn.
  rewrite Hp. cbn. rewrite Hbe. cbn. by rewrite <- !app_assoc.
Qed.

End editor.

(** ** Failures and notifications *)

Lemma existsb_error_toast (evs : list Event) :
  existsb is_error_toast evs = true ↔ ∃ msg, Toast Error msg ∈ evs.
Proof.
  rewrite existsb_exists. split.
  - intros (e & Hin & He). destruct e as [| | | |[] msg| | | | |]; try done.
    exists msg. by apply list_elem_of_In.
  - intros (msg & Hin). exists (Toast Error msg).
    split; [by apply list_elem_of_In|done].
Qed.

(** The meaning of [surfaced]. *)
Lemma surfaced_spec (evs : list Event) :
  surfaced evs = true ↔
  ∀ pre r status post, evs = pre ++ Failed r status :: post →
    ∃ msg, Toast Error msg ∈ post.
Proof.
  induction evs as [|e evs IH].
  - split; [|done]. intros _ [|??] ???; discriminate.
  - assert (Hskip : (∀ r st, e ≠ Failed r st) →
      (surfaced evs = true ↔
       ∀ pre r status post, e :: evs = pre ++ Failed r status :: post →
         ∃ msg, Toast Error msg ∈ post)).
    { intros Hne. rewrite IH. split.
      - intros H [|e' pre] r st post Heq; simplify_eq/=; [by destruct (Hne r st)|].
        by eapply H.
      - intros H pre r st post ->. by apply (H (e :: pre) r st post). }
    destruct e; try (cbn [surfaced]; apply Hskip; done).
    cbn [surfaced]. rewrite andb_true_iff, existsb_error_toast, IH. split.
    + intros [Hhd Htl] [|e' pre] r' st' post Heq; simplify_eq/=; [done|].
      by eapply Htl.
    + intros H. split.
      * by apply (H [] r status evs).
      * intros pre r' st' post ->. by apply (H (Failed r status :: pre) r' st' post).
Qed.

Section notifications.
Context {B : Type} (be : Backend B).

Lemma editor_failures_surface (a : ProjectEditor.Action)
    (w : World ProjectEditor.State B) :
  ∃ evs, trace (dispatch (ProjectEditor.handler be a) w) = trace w ++ evs
         ∧ surfaced evs = true.
Proof.
  unfold dispatch; destruct a; cbn [ProjectEditor.handler];
    unfold ProjectEditor.fetchProject, ProjectEditor.generateContent,
      ProjectEditor.generateAllContent, ProjectEditor.refineContent,
      ProjectEditor.acceptRefinement, ProjectEditor.rejectRefinement,
      ProjectEditor.submitFeedback, ProjectEditor.exportDocument,
      ProjectEditor.setProject, ProjectEditor.setLoading,
      ProjectEditor.setGenerating, ProjectEditor.setRefinementPrompts,
      ProjectEditor.setRefinementResults, ProjectEditor.setComments.
  all: handler_cases.
Qed.

Lemma wizard_failures_surface (a : NewProject.Action)
    (w : World NewProject.State B) :
  ∃ evs, trace (dispatch (NewProject.handler be a) w) = trace w ++ evs
         ∧ surfaced evs = true.
Proof.
  unfold dispatch; destruct a as [| |[]| |]; cbn [NewProject.handler];
    unfold NewProject.handleNext, NewProject.generateAIOutline,
      NewProject.createProject, NewProject.setStep, NewProject.setLoading,
      NewProject.setStructure.
  all: handler_cases.
Qed.

Lemma dashboard_failures_surface (a : Dashboard.Action)
    (w : World Dashboard.State B) :
  ∃ evs, trace (dispatch (Dashboard.handler be a) w) = trace w ++ evs
         ∧ surfaced evs = true.
Proof.
  unfold dispatch; destruct a; cbn [Dashboard.handler];
    unfold Dashboard.fetchProjects, Dashboard.handleSearch,
      Dashboard.handleDelete, Dashboard.handleExport, Dashboard.fetchProjects,
      Dashboard.setProjects, Dashboard.setLoading, Dashboard.setMenuOpen.
  all: handler_cases.
Qed.

End notifications.

Section notifications_summary.
Context {B : Type} (be : Backend B).

(** C6, for the pages that notify.  In the project editor, the wizard and
    the dashboard every failed call, whatever its status (401 included: the
    interceptor passes the rejection on), is followed by an error toast. *)
Theorem failures_surface :
  (∀ a (w : World ProjectEditor.State B),
     ∃ evs, trace (dispatch (ProjectEditor.handler be a) w) = trace w ++ evs
            ∧ surfaced evs = true)
  ∧ (∀ a (w : World NewProject.State B),
     ∃ evs, trace (dispatch (NewProject.handler be a) w) = trace w ++ evs
            ∧ surfaced evs = true)
  ∧ (∀ a (w : World Dashboard.State B),
     ∃ evs, trace (dispatch (Dashboard.handler be a) w) = trace w ++ evs
            ∧ surfaced evs = true).
Proof.
  split; [|split]; intros a w.
  - apply editor_failures_surface.
  - apply wizard_failures_surface.
  - apply dashboard_failures_surface.
Qed.

(** A call rejected with status 401 also clears the stored session and
    sends the browser to the login page, before the handler sees the
    rejection. *)
Lemma api_unauthorized {S : Type} (r : Request) (w : World S B) (b' : B) :
  be r (srv w) = (Rejected (Some 401), b') →
  api be r w
  = (inl (AxiosError (Some 401)),
     mkWorld (ui w) b'
       (trace w ++ [Sent r; Failed r (Some 401); StorageRemove "token";
                    StorageRemove "user"; Redirect "/login"])).
Proof. intros H. unfold api. by rewrite H. Qed.

(** The loads of the profile page never notify, whether they fail or
    not. *)
Lemma profile_loads_are_silent (w : World Profile.State B)
    (h : Profile.State → M Profile.State B ()) :
  h ∈ [Profile.loadProfileData be; Profile.fetchUserStats be;
       Profile.fetchUserActivities be; Profile.fetchUserPreferences be] →
  ∃ evs, trace (dispatch h w) = trace w ++ evs
         ∧ existsb is_notification evs = false.
Proof.
  intros Hin.
  repeat (apply elem_of_cons in Hin as [->|Hin]); [..|by apply elem_of_nil in Hin].
  all: unfold dispatch, Profile.loadProfileData, Profile.fetchUserStats,
         Profile.fetchUserActivities, Profile.fetchUserPreferences,
         Profile.setProfileData, Profile.setStats, Profile.setActivities,
         Profile.setPreferences.
  all: munfold; cbn; repeat case_match; simplify_eq/=; rewrite <- ?app_assoc;
    eexists; (split; [reflexivity|]); cbn; unfold intercept;
    repeat case_decide; reflexivity.
Qed.

(** Saving the preferences reports its outcome with a blocking alert, a
    failure after logging it to the console; it shows no toast and leaves
    the page as it is. *)
Lemma handleSavePreferences_alerts (w : World Profile.State B) :
  let request := UpdatePreferences (Profile.preferences (ui w)) in
  let w' := dispatch (Profile.handleSavePreferences be) w in
  ui w' = ui w
  ∧ srv w' = (be request (srv w)).2
  ∧ trace w'
    = trace w
      ++ Sent request
         :: match (be request (srv w)).1 with
            | Ok _ => [Alert "Preferences saved successfully!"]
            | Rejected status =>
                Failed request status :: intercept status
                ++ [ConsoleError;
                    Alert "Error saving preferences. Please try again."]
            end.
Proof.
  cbv zeta. unfold Profile.handleSavePreferences. munfold. cbn.
  destruct (be _ _) as [[data|status] b']; cbn.
  - by rewrite <- !app_assoc.
  - by rewrite <- !app_assoc.
Qed.

End notifications_summary.

(** C6 fails on the profile page.  A failed load of the statistics leaves a
    line on the console and nothing on the screen. *)
Lemma fetchUserStats_swallows_failure :
  let w := mkWorld Sample.profile (Sample.server [Server.Fails (Some 500)]) [] in
  let w' := dispatch (Profile.fetchUserStats Server.respond) w in
  trace w' = [Sent GetStats; Failed GetStats (Some 500); ConsoleError]
  ∧ surfaced (trace w') = false
  ∧ existsb is_notification (trace w') = false
  ∧ ui w' = ui w.
Proof. vm_compute. done. Qed.

(** ** Creating the project *)

Section wizard.
Context {B : Type} (be : Backend B).

(** C10.  With an empty structure [createProject] shows the validation
    error and does nothing else: no request is sent, the server and the
    state of the page are what they were. *)
Theorem createProject_empty_structure (w : World NewProject.State B) :
  NewProject.structure (ui w) = [] →
  dispatch (NewProject.createProject be) w
  = mkWorld (ui w) (srv w)
      (trace w ++ [Toast Error "Please add at least one section/slide"]).
Proof.
  intros H. unfold dispatch, NewProject.createProject. by rewrite H.
Qed.

(** With a structure the request is sent, with the structure under
    [sections] for a document and under [slides] for a deck. *)
Lemma createProject_sends (w : World NewProject.State B) :
  NewProject.structure (ui w) ≠ [] →
  ∃ evs, trace (dispatch (NewProject.createProject be) w)
         = trace w
           ++ Sent (CreateProject
                (ProjectData.mk (NewProject.formData (ui w))
                   (if NewProject.is_docx (ui w)
                    then Some (NewProject.structure (ui w)) else None)
                   (if NewProject.is_pptx (ui w)
                    then Some (NewProject.structure (ui w)) else None)))
              :: evs.
Proof.
  intros H. unfold dispatch, NewProject.createProject, NewProject.setLoading.
  rewrite bool_decide_eq_false_2
    by (by destruct (NewProject.structure (ui w))).
  munfold. cbn. destruct (be _ _) as [[p|st] b']; cbn;
    rewrite <- ?app_assoc; eauto.
Qed.

End wizard.

(** ** Downloads *)

Section download.
Context {B : Type} (be : Backend B).

Lemma handleExport_ok (v : World Dashboard.State B) (q : Project.t)
    (response : Blob) (b' : B) :
  be (ExportDocument (Project.id q)) (srv v) = (Ok response, b') →
  dispatch (Dashboard.handleExport be q) v
  = mkWorld (Dashboard.with_menuOpen None (ui v)) b'
      (trace v
       ++ [Toast Loading "Preparing document for download...";
           Sent (ExportDocument (Project.id q));
           Download (Project.title q +:+ "." +:+ Project.document_type q) response;
           ToastDismiss;
           Toast Success "Document downloaded successfully"]).
Proof.
  intros Hbe. unfold Dashboard.handleExport, Dashboard.setMenuOpen. munfold.
  cbn. rewrite Hbe. cbn. by rewrite <- !app_assoc.
Qed.

(** C7.  When the server answers the export, the editor and the dashboard
    offer the file for download under the name made of the title of the
    project, a dot and its document type, and that is the only download. *)
Theorem export_filename (w : World ProjectEditor.State B)
    (v : World Dashboard.State B) (p q : Project.t) (rp rq : Blob) (bp bq : B) :
  ProjectEditor.project (ui w) = Some p →
  be (ExportDocument (Project.id p)) (srv w) = (Ok rp, bp) →
  be (ExportDocument (Project.id q)) (srv v) = (Ok rq, bq) →
  trace (dispatch (ProjectEditor.exportDocument be) w)
  = trace w
    ++ [Toast Loading "Preparing document for download...";
        Sent (ExportDocument (Project.id p));
        Download (Project.title p +:+ "." +:+ Project.document_type p) rp;
        ToastDismiss;
        Toast Success "Document downloaded successfully!"]
  ∧ trace (dispatch (Dashboard.handleExport be q) v)
    = trace v
      ++ [Toast Loading "Preparing document for download...";
          Sent (ExportDocument (Project.id q));
          Download (Project.title q +:+ "." +:+ Project.document_type q) rq;
          ToastDismiss;
          Toast Success "Document downloaded successfully"].
Proof.
  intros Hp Hbp Hbq.
  by rewrite (exportDocument_ok be w p rp bp Hp Hbp),
             (handleExport_ok v q rq bq Hbq).
Qed.

End download.

(** ** The wizard against the document store *)

Section store.
Import Server.

Lemma create_ok (d : ProjectData.t) (σ σ' : State) (p : Project.t) :
  create d σ = (Ok p, σ') →
  projects σ !! Project.id p = None
  ∧ projects σ' = <[Project.id p := p]> (projects σ).
Proof.
  unfold create. destruct (valid d); [|done]. intros [= <- <-]. split; [|done].
  apply not_elem_of_dom, is_fresh.
Qed.

Lemma delete_project_ok (id : string) (σ σ' : State) :
  delete_project id σ = (Ok (), σ') → projects σ' = delete id (projects σ).
Proof.
  unfold delete_project. destruct (projects σ !! id); [|done].
  by intros [= <-].
Qed.

Lemma scripted_projects (r : Request) (σ σ' : State) (x : Response (payload r)) :
  scripted r σ = (x, σ') → projects σ' = projects σ.
Proof.
  unfold scripted. destruct (script σ); by intros [= _ <-].
Qed.

(** C9.  When [generateAIOutline] reports success, the stored projects are
    what they were before: the run created a project under an identifier
    that was not in use, asked for the outline of that project and deleted
    it again, in this order, before the notification. *)
Theorem generateAIOutline_restores_store (s : NewProject.State) (σ : State) :
  let w' := dispatch (NewProject.generateAIOutline respond) (mkWorld s σ []) in
  Toast Success "AI outline generated successfully!" ∈ trace w' →
  projects (srv w') = projects σ
  ∧ ∃ d tempId,
      projects σ !! tempId = None
      ∧ trace w' = [Sent (CreateProject d); Sent (GenerateOutline tempId 5);
                    Sent (DeleteProject tempId);
                    Toast Success "AI outline generated successfully!"].
Proof.
  unfold NewProject.generateAIOutline, NewProject.setLoading,
    NewProject.setStructure. munfold. cbn.
  destruct (create _ σ) as [[p|st] σ1] eqn:Hc; cbn.
  2:{ intros H. by in_trace H. }
  destruct (scripted _ σ1) as [[o|st] σ2] eqn:Ho; cbn.
  2:{ intros H. by in_trace H. }
  assert (Hstore : ∀ σ3, delete_project (Project.id p) σ2 = (Ok (), σ3) →
                        projects σ3 = projects σ).
  { intros σ3 Hd. apply create_ok in Hc as [Hfresh Hc].
    apply scripted_projects in Ho. apply delete_project_ok in Hd.
    rewrite Hd, Ho, Hc. by apply delete_insert_id. }
  destruct (NewProject.is_docx s); cbn.
  all: destruct (delete_project _ σ2) as [[[]|st] σ3] eqn:Hd; cbn.
  all: intros H; try (by in_trace H).
  all: split; [by apply Hstore|].
  all: eexists _, (Project.id p); split; [by apply create_ok in Hc as [? _]|done].
Qed.


End store.
(** ** The export adapter *)

Section export.
Import Server.

Lemma generated_content_Some (item : Item.t) (c : Content) :
  generated_content item = Some c → Item.content item = Some c.
Proof.
  unfold generated_content. destruct (Item.content item) as [c'|]; cbn; [|done].
  by destruct (truthy c'); intros [= <-].
Qed.

Lemma parts_failed (l : list Item.t) :
  parts l = inl ExportFailed ↔ ∃ item, item ∈ l ∧ lacks_content item.
Proof.
  unfold lacks_content. induction l as [|item l IH]; cbn.
  - split; [done|]. intros (item & Hin & _). by apply elem_of_nil in Hin.
  - unfold part. destruct (generated_content item) as [c|] eqn:Hc; cbn.
    + destruct (parts l) as [[]|xs].
      * split; [|done]. intros _. destruct IH as [(x & Hin & Hx) _]; [done|].
        exists x. split; [by apply list_elem_of_further|done].
      * split; [done|]. intros (x & Hin & Hx).
        apply elem_of_cons in Hin as [->|Hin]; [congruence|].
        assert (Hno : inr xs = inl ExportFailed) by (apply IH; eauto).
        discriminate Hno.
    + split; [|done]. intros _. exists item. split; [apply list_elem_of_here|done].
Qed.

Lemma parts_ok (l : list Item.t) (xs : list (string * Content)) :
  parts l = inr xs →
  Some <$> xs = (λ item, (Item.title item,.) <$> Item.content item) <$> l.
Proof.
  revert xs. induction l as [|item l IH]; intros xs; cbn.
  - by intros [= <-].
  - unfold part. destruct (generated_content item) as [c|] eqn:Hc; cbn; [|done].
    apply generated_content_Some in Hc. rewrite Hc.
    destruct (parts l) as [[]|ys]; [done|]. intros [= <-]. cbn.
    by rewrite (IH ys).
Qed.

(** C5.  For every project, the export fails with [ExportFailed] if and
    only if at least one of its content items lacks generated content.
    When every content item has generated content the export does not
    fail: it yields a document with the MIME type of the document type.
    And the export is all-or-nothing: a document it yields has one titled
    part per content item of the project, in order, each with the content
    of its item, so that no item is left out of it. *)
Theorem export_failed_iff (p : Project.t) :
  (export p = inl ExportFailed
   ↔ ∃ item, item ∈ items p ∧ lacks_content item)
  ∧ ((∀ item, item ∈ items p → ¬ lacks_content item) →
       ∃ doc, export p = inr (doc, mime (Project.document_type p)))
  ∧ (∀ doc type, export p = inr (doc, type) →
       type = mime (Project.document_type p)
       ∧ length (doc_parts doc) = length (items p)
       ∧ Some <$> doc_parts doc
         = (λ item, (Item.title item,.) <$> Item.content item) <$> items p).
Proof.
  unfold export. split; [|split].
  - rewrite <- parts_failed. by destruct (parts (items p)) as [[]|xs].
  - intros Hall. destruct (parts (items p)) as [[]|xs] eqn:Hparts; [|by eexists].
    apply parts_failed in Hparts as (item & Hin & Hlacks).
    by destruct (Hall item Hin).
  - intros doc type. destruct (parts (items p)) as [[]|xs] eqn:Hparts; [done|].
    intros [= <- <-]. apply parts_ok in Hparts. split; [done|]. split; [|done].
    apply (f_equal length) in Hparts. by rewrite !length_fmap in Hparts.
Qed.

(** An item whose content is the empty text lacks generated content, as
    one without content does; an empty list of bullets does not. *)
Example lacks_content_cases :
  lacks_content (Item.mk "s1" "Introduction" 1 None None)
  ∧ lacks_content (Item.mk "s1" "Introduction" 1 (Some (Text "")) None)
  ∧ ¬ lacks_content (Item.mk "s1" "Introduction" 1 (Some (Bullets [])) None)
  ∧ ¬ lacks_content Sample.intro.
Proof. by repeat split. Qed.

(** A project without content items has no item that lacks content: its
    export is the document without parts.  The export of [Sample.report]
    has the one part of its section. *)
Example export_samples :
  export Sample.empty_report
  = inr (mkDocument [], mime "docx")
  ∧ export Sample.report
    = inr (mkDocument [("Introduction", Text "Sales grew.")], mime "docx").
Proof. by split. Qed.

End export.


(** ** The theorems at the sample data *)

(** The section of the sample report is refined twice and accepted: the
    second proposal becomes its content. *)
Lemma refine_twice_then_accept_witness :
  let w := mkWorld Sample.editor
             (Sample.server [Server.Refined Sample.first;
                             Server.Refined Sample.second;
                             Server.NoContent]) [] in
  let w1 := dispatch (ProjectEditor.refineContent Server.respond "s1") w in
  let w2 := dispatch (ProjectEditor.refineContent Server.respond "s1")
              (dispatch (ProjectEditor.handler Server.respond
                           (ProjectEditor.TypePrompt "s1" "Make it shorter")) w1) in
  let w3 := dispatch (ProjectEditor.acceptRefinement Server.respond "s1") w2 in
  ProjectEditor.hasRefinement (ui w1) "s1" = Some Sample.first
  ∧ ProjectEditor.hasRefinement (ui w2) "s1" = Some Sample.second
  ∧ ProjectEditor.content_of (ui w2) "s1" = Some (Text "Sales grew.")
  ∧ ProjectEditor.content_of (ui w3) "s1" = Some (Text "Sales rose.")
  ∧ ProjectEditor.hasRefinement (ui w3) "s1" = None.
Proof.
  refine (refine_twice_then_accept Server.respond
           (mkWorld Sample.editor
              (Sample.server [Server.Refined Sample.first;
                              Server.Refined Sample.second;
                              Server.NoContent]) [])
           "s1" "Make it shorter" Sample.report [Sample.intro] 0
           Sample.first Sample.second
           (Sample.server [Server.Refined Sample.second; Server.NoContent])
           (Sample.server [Server.NoContent]) (Sample.server [])
           _ _ _ _ _ _ _ _); reflexivity.
Defined.


(** The sample report is exported from the editor and from the dashboard
    as "Q1 Report.docx". *)
Lemma export_filename_witness :
  let blob := mkBlob (mkDocument [("Introduction", Text "Sales grew.")])
                     (Some (Server.mime "docx")) in
  let w := mkWorld Sample.editor (Sample.server []) [] in
  let v := mkWorld Sample.dashboard (Sample.server []) [] in
  trace (dispatch (ProjectEditor.exportDocument Server.respond) w)
  = [Toast Loading "Preparing document for download...";
     Sent (ExportDocument "p1");
     Download "Q1 Report.docx" blob;
     ToastDismiss;
     Toast Success "Document downloaded successfully!"]
  ∧ trace (dispatch (Dashboard.handleExport Server.respond Sample.report) v)
    = [Toast Loading "Preparing document for download...";
       Sent (ExportDocument "p1");
       Download "Q1 Report.docx" blob;
       ToastDismiss;
       Toast Success "Document downloaded successfully"].
Proof.
  refine (export_filename Server.respond
           (mkWorld Sample.editor (Sample.server []) [])
           (mkWorld Sample.dashboard (Sample.server []) [])
           Sample.report Sample.report
           (mkBlob (mkDocument [("Introduction", Text "Sales grew.")])
                   (Some (Server.mime "docx")))
           (mkBlob (mkDocument [("Introduction", Text "Sales grew.")])
                   (Some (Server.mime "docx")))
           (Sample.server []) (Sample.server []) _ _ _); reflexivity.
Defined.

(** The wizard of the sample asks for an outline on a server that stores
    the sample report: the report is the only project afterwards. *)
Lemma generateAIOutline_restores_store_witness :
  let σ := Sample.server [Server.AnOutline Sample.outline] in
  let w' := dispatch (NewProject.generateAIOutline Server.respond)
              (mkWorld Sample.wizard σ []) in
  NewProject.structure (ui w') = default [] (outline_sections Sample.outline)
  ∧ Server.projects (srv w') = Server.projects σ
  ∧ ∃ d tempId,
      Server.projects σ !! tempId = None
      ∧ trace w' = [Sent (CreateProject d); Sent (GenerateOutline tempId 5);
                    Sent (DeleteProject tempId);
                    Toast Success "AI outline generated successfully!"].
Proof.
  split; [vm_compute; reflexivity|].
  apply (generateAIOutline_restores_store Sample.wizard
           (Sample.server [Server.AnOutline Sample.outline])).
  vm_compute. do 3 apply list_elem_of_further. apply list_elem_of_here.
Defined.

(** The wizard of the sample has no section yet. *)
Lemma createProject_empty_structure_witness :
  let w := mkWorld Sample.wizard (Sample.server []) [] in
  dispatch (NewProject.createProject Server.respond) w
  = mkWorld Sample.wizard (Sample.server [])
      [Toast Error "Please add at least one section/slide"].
Proof.
  refine (createProject_empty_structure Server.respond
            (mkWorld Sample.wizard (Sample.server []) []) _); reflexivity.
Defined.

(** * Further properties of the pages *)

(** ** More on the structure editor *)

Section structure_more.
Import NewProject.

(** [addSection] puts the new, untitled section last, numbered N + 1, and
    leaves the sections in front of it alone; a numbering 1..N stays
    one. *)
Theorem addSection_appends (now : N) (s : list Item.t) :
  contiguous s →
  contiguous (addSection now s)
  ∧ take (length s) (addSection now s) = s
  ∧ last (addSection now s)
    = Some (Item.mk (pretty now) "" (S (length s)) None None).
Proof.
  intros Hs. split; [by apply addSection_contiguous|]. unfold addSection.
  split.
  - by rewrite take_app_length.
  - rewrite last_snoc. do 2 f_equal. lia.
Qed.

Lemma addSection_appends_witness :
  let s := run [Add 1; Add 2] [] in
  contiguous (addSection 3 s)
  ∧ take (length s) (addSection 3 s) = s
  ∧ last (addSection 3 s) = Some (Item.mk "3" "" 3 None None).
Proof.
  apply (addSection_appends 3 (run [Add 1; Add 2] [])). vm_compute. reflexivity.
Defined.

Lemma unordered_renumber (l : list Item.t) :
  unordered <$> renumber l = unordered <$> l.
Proof.
  unfold renumber. rewrite fmap_imap.
  rewrite <- (imap_const unordered l). by apply imap_ext.
Qed.

Lemma moveSection_down (i : nat) (s : list Item.t) (a b : Item.t) :
  s !! i = Some a → s !! S i = Some b →
  moveSection (Z.of_nat i) "down" s
  = inr (renumber (<[i := b]> (<[S i := a]> s))).
Proof.
  intros Ha Hb. unfold moveSection.
  change (String.eqb "down" "up") with false. cbv zeta iota.
  assert (S i < length s) by (by eapply lookup_lt_Some).
  rewrite !bool_decide_eq_true_2 by lia. cbn [andb].
  unfold JS.at_index. rewrite !bool_decide_eq_true_2 by lia.
  replace (Z.to_nat (Z.of_nat i + 1)) with (S i) by lia.
  by rewrite Nat2Z.id, Ha, Hb.
Qed.

Lemma moveSection_up (i : nat) (s : list Item.t) (a b : Item.t) :
  s !! i = Some a → s !! S i = Some b →
  moveSection (Z.of_nat (S i)) "up" s
  = inr (renumber (<[S i := a]> (<[i := b]> s))).
Proof.
  intros Ha Hb. unfold moveSection.
  change (String.eqb "up" "up") with true. cbv zeta iota.
  assert (S i < length s) by (by eapply lookup_lt_Some).
  rewrite !bool_decide_eq_true_2 by lia. cbn [andb].
  unfold JS.at_index. rewrite !bool_decide_eq_true_2 by lia.
  replace (Z.to_nat (Z.of_nat (S i) - 1)) with i by lia.
  by rewrite Nat2Z.id, Ha, Hb.
Qed.

(** Moving a section down exchanges it with the next one and numbers all
    sections 1..N, whatever the numbering was; nothing else of a section
    changes, and moving the next one up does the same. *)
Theorem moveSection_swaps_neighbours (i : nat) (s : list Item.t)
    (a b : Item.t) :
  s !! i = Some a → s !! S i = Some b →
  ∃ l, moveSection (Z.of_nat i) "down" s = inr l
       ∧ moveSection (Z.of_nat (S i)) "up" s = inr l
       ∧ contiguous l
       ∧ unordered <$> l
         = <[i := unordered b]> (<[S i := unordered a]> (unordered <$> s)).
Proof.
  intros Ha Hb. eexists. split; [by apply moveSection_down|].
  split; [|split].
  - rewrite (moveSection_up i s a b Ha Hb). do 2 f_equal.
    symmetry. apply list_insert_insert_ne. lia.
  - apply renumber_contiguous.
  - by rewrite unordered_renumber, !list_fmap_insert.
Qed.

Lemma moveSection_swaps_neighbours_witness :
  let s := run [Add 1; Add 2; Add 3; Remove "2"] [] in
  ∃ l, moveSection 0 "down" s = inr l
       ∧ moveSection 1 "up" s = inr l
       ∧ contiguous l
       ∧ Item.id <$> l = ["3"; "1"].
Proof.
  destruct (moveSection_swaps_neighbours 0
              (run [Add 1; Add 2; Add 3; Remove "2"] [])
              (Item.mk "1" "" 1 None None) (Item.mk "3" "" 3 None None))
    as (l & Hdown & Hup & Hl & Hrest); [reflexivity..|].
  exists l. repeat split; try done.
  assert (Hid : Item.id <$> (unordered <$> l) = Item.id <$> l).
  { rewrite <- list_fmap_compose. by apply list_fmap_ext. }
  rewrite <- Hid, Hrest. reflexivity.
Defined.

(** Moving a section down and then up again gives the sections back, in
    their places and numbered 1..N. *)
Theorem moveSection_down_up (i : nat) (s l : list Item.t) :
  S i < length s →
  moveSection (Z.of_nat i) "down" s = inr l →
  moveSection (Z.of_nat (S i)) "up" l = inr (renumber s).
Proof.
  intros Hlen.
  destruct (lookup_lt_is_Some_2 s i) as [a Ha]; [lia|].
  destruct (lookup_lt_is_Some_2 s (S i)) as [b Hb]; [done|].
  rewrite (moveSection_down i s a b Ha Hb). intros [= <-].
  set (f := λ idx item, Item.set_order (idx + 1) item).
  assert (Hlen' : S i < length (<[i:=b]> (<[S i:=a]> s)))
    by (by rewrite !length_insert).
  rewrite (moveSection_up i _ (f i b) (f (S i) a)).
  - f_equal. unfold renumber. fold f.
    apply list_eq. intros k.
    rewrite !list_lookup_imap.
    destruct (decide (k = S i)) as [->|Hk1].
    + rewrite list_lookup_insert_eq by (by rewrite length_insert, length_imap).
      by rewrite Hb.
    + rewrite list_lookup_insert_ne by done.
      destruct (decide (k = i)) as [->|Hk2].
      * rewrite list_lookup_insert_eq by (by rewrite length_imap; lia).
        by rewrite Ha.
      * rewrite list_lookup_insert_ne by done.
        rewrite list_lookup_imap.
        rewrite list_lookup_insert_ne by done.
        rewrite list_lookup_insert_ne by done.
        destruct (s !! k); [done|done].
  - unfold renumber. fold f. rewrite list_lookup_imap.
    rewrite list_lookup_insert_eq by (rewrite length_insert; lia). done.
  - unfold renumber. fold f. rewrite list_lookup_imap.
    rewrite list_lookup_insert_ne by lia.
    rewrite list_lookup_insert_eq by lia. done.
Qed.

Lemma moveSection_down_up_witness :
  let s := run [Add 1; Add 2; Add 3] [] in
  ∃ l, moveSection 0 "down" s = inr l ∧ moveSection 1 "up" l = inr s.
Proof.
  eexists. split; [reflexivity|].
  exact (moveSection_down_up 0 (run [Add 1; Add 2; Add 3] []) _
           ltac:(vm_compute; lia) eq_refl).
Defined.

End structure_more.

Section structure_edges.
Import NewProject.

(** The first section does not move up and the last one does not move
    down, and a move on an index two or more places outside the array
    does nothing either: the array is left as it is, numbering
    included. *)
Theorem moveSection_at_the_ends (s : list Item.t) (index : Z) :
  moveSection 0 "up" s = inr s
  ∧ moveSection (Z.of_nat (length s) - 1) "down" s = inr s
  ∧ ((index < -1)%Z ∨ (Z.of_nat (length s) < index)%Z →
     ∀ direction, moveSection index direction s = inr s).
Proof.
  unfold moveSection. split; [|split].
  - change (String.eqb "up" "up") with true. cbv zeta iota.
    by rewrite bool_decide_eq_false_2 by lia.
  - change (String.eqb "down" "up") with false. cbv zeta iota.
    rewrite (bool_decide_eq_false_2 (_ < _)%Z) by lia.
    by rewrite andb_false_r.
  - intros Hout direction. cbv zeta.
    destruct (String.eqb direction "up").
    + destruct Hout.
      * by rewrite bool_decide_eq_false_2 by lia.
      * rewrite (bool_decide_eq_false_2 (_ < _)%Z) by lia.
        by rewrite andb_false_r.
    + destruct Hout.
      * by rewrite bool_decide_eq_false_2 by lia.
      * rewrite (bool_decide_eq_false_2 (_ < _)%Z) by lia.
        by rewrite andb_false_r.
Qed.

Lemma removeSection_absent (id : string) (s : list Item.t) :
  id ∉ Item.id <$> s → removeSection id s = s.
Proof.
  unfold removeSection. intros Hid. induction s as [|item s IH]; [done|].
  rewrite fmap_cons, not_elem_of_cons in Hid. destruct Hid as [Hne Hid].
  rewrite filter_cons_True by done. f_equal. by apply IH.
Qed.

(** [removeSection] drops every section with the identifier and keeps the
    others as they are and in their order; a second removal, or the
    removal of an identifier that no section has, changes nothing. *)
Theorem removeSection_removes (id : string) (s : list Item.t) :
  (∀ item, item ∈ removeSection id s ↔ item ∈ s ∧ Item.id item ≠ id)
  ∧ removeSection id s `sublist_of` s
  ∧ removeSection id (removeSection id s) = removeSection id s
  ∧ (id ∉ Item.id <$> s → removeSection id s = s).
Proof.
  split; [|split; [|split]]; [| | |apply removeSection_absent].
  all: unfold removeSection.
  - intros item. rewrite list_elem_of_filter. tauto.
  - apply sublist_filter.
  - rewrite list_filter_filter. apply list_filter_iff. tauto.
Qed.

(** Removing the identifier that [addSection] has just given undoes the
    addition, and more when the identifier was in use: two sections added
    within the same millisecond carry the same identifier, and removing
    one removes both. *)
Theorem removeSection_addSection (now : N) (s : list Item.t) :
  removeSection (pretty now) (addSection now s) = removeSection (pretty now) s
  ∧ removeSection (pretty now) (addSection now (addSection now s))
    = removeSection (pretty now) s
  ∧ (pretty now ∉ Item.id <$> s →
     removeSection (pretty now) (addSection now s) = s).
Proof.
  assert (Hone : ∀ l, removeSection (pretty now) (addSection now l)
                      = removeSection (pretty now) l).
  { intros l. unfold removeSection, addSection. rewrite filter_app.
    rewrite filter_cons_False by (cbn; tauto).
    by rewrite filter_nil, app_nil_r. }
  split; [done|]. split; [by rewrite !Hone|].
  intros Hfresh. rewrite Hone.
  by apply removeSection_absent.
Qed.

(** [updateSection] changes titles only, and only of the sections with the
    identifier; of two updates of the same identifier the later one
    stands, and updates of different identifiers do not interfere. *)
Theorem updateSection_titles (id id' t t' : string) (s : list Item.t) :
  Item.set_title "" <$> updateSection id t s = Item.set_title "" <$> s
  ∧ Item.title <$> updateSection id t s
    = (λ item, if decide (Item.id item = id) then t else Item.title item) <$> s
  ∧ updateSection id t' (updateSection id t s) = updateSection id t' s
  ∧ (id ≠ id' →
     updateSection id t (updateSection id' t' s)
     = updateSection id' t' (updateSection id t s)).
Proof.
  unfold updateSection. rewrite <- !list_fmap_compose.
  repeat split.
  - apply list_fmap_ext. intros _ item _. cbn. by case_decide.
  - apply list_fmap_ext. intros _ item _. cbn. by case_decide.
  - apply list_fmap_ext. intros _ item _. cbn.
    repeat (case_decide; cbn in * ); try done.
  - intros Hne. apply list_fmap_ext. intros _ item _. cbn.
    repeat (case_decide; cbn in * ); congruence.
Qed.

End structure_edges.

(** ** More on the wizard *)

Section wizard_more.
Import NewProject.
Context {B : Type} (be : Backend B).


(** When the outline request fails, [generateAIOutline] reports the error
    and stops: the structure is what it was, and no request to delete the
    temporary project, which the server has created, is sent. *)
Theorem generateAIOutline_outline_fails (w : World State B) (p : Project.t)
    (status : option nat) (b1 b2 : B) :
  be (CreateProject (tempData (ui w))) (srv w) = (Ok p, b1) →
  be (GenerateOutline (Project.id p) 5) b1 = (Rejected status, b2) →
  dispatch (generateAIOutline be) w
  = mkWorld (with_loading false (ui w)) b2
      (trace w
       ++ [Sent (CreateProject (tempData (ui w)));
           Sent (GenerateOutline (Project.id p) 5);
           Failed (GenerateOutline (Project.id p) 5) status]
       ++ intercept status
       ++ [Toast Error "Error generating AI outline"; ConsoleError]).
Proof.
  intros Hcreate Houtline.
  unfold generateAIOutline, setLoading, setStructure, tempData in *.
  munfold. cbn. rewrite Hcreate. cbn. rewrite Houtline. cbn.
  f_equal. rewrite <- !app_assoc. cbn. by rewrite <- ?app_assoc.
Qed.

(** When the outline arrives and the deletion of the temporary project
    fails, the structure has been replaced by the outline all the same,
    and the user is told that generating the outline failed. *)
Theorem generateAIOutline_delete_fails (w : World State B) (p : Project.t)
    (outline : Outline) (status : option nat) (b1 b2 b3 : B) :
  be (CreateProject (tempData (ui w))) (srv w) = (Ok p, b1) →
  be (GenerateOutline (Project.id p) 5) b1 = (Ok outline, b2) →
  be (DeleteProject (Project.id p)) b2 = (Rejected status, b3) →
  let w' := dispatch (generateAIOutline be) w in
  structure (ui w')
  = default [] (if is_docx (ui w) then outline_sections outline
                else outline_slides outline)
  ∧ ∃ evs, trace w' = trace w ++ evs
           ++ [Toast Error "Error generating AI outline"; ConsoleError]
      ∧ ∀ msg, Toast Success msg ∉ evs.
Proof.
  intros Hcreate Houtline Hdelete.
  unfold generateAIOutline, setLoading, setStructure, tempData in *.
  munfold. cbn. rewrite Hcreate. cbn. rewrite Houtline. cbn.
  destruct (is_docx (ui w)); cbn; rewrite Hdelete; cbn.
  all: split; [done|].
  all: eexists (_ :: _ :: _ :: _ :: intercept status).
  all: rewrite <- !app_assoc; cbn; rewrite <- ?app_assoc; split; [done|].
  all: intros msg Hin; by in_trace Hin.
Qed.

(** With a structure, [createProject] sends it and, when the server
    answers, opens the editor of the project the server returned; when the
    server refuses, it stays on the page.  The structure is kept in both
    cases. *)
Theorem createProject_outcome (w : World State B) :
  structure (ui w) ≠ [] →
  let d := ProjectData.mk (formData (ui w))
             (if is_docx (ui w) then Some (structure (ui w)) else None)
             (if is_pptx (ui w) then Some (structure (ui w)) else None) in
  let w' := dispatch (createProject be) w in
  ui w' = with_loading false (ui w)
  ∧ (∀ p b', be (CreateProject d) (srv w) = (Ok p, b') →
       trace w' = trace w
         ++ [Sent (CreateProject d);
             Toast Success "Project created successfully!";
             Navigate ("/projects/" +:+ Project.id p +:+ "/edit")])
  ∧ (∀ status b', be (CreateProject d) (srv w) = (Rejected status, b') →
       trace w' = trace w
         ++ [Sent (CreateProject d); Failed (CreateProject d) status]
         ++ intercept status
         ++ [Toast Error "Error creating project"; ConsoleError]).
Proof.
  intros Hs. unfold dispatch, createProject, setLoading.
  rewrite bool_decide_eq_false_2 by (by destruct (structure (ui w))).
  munfold. cbn. destruct (be _ _) as [[p|status] b'] eqn:Hbe; cbn.
  all: split; [done|]; split; intros ? ? [= <- <-].
  - by rewrite <- !app_assoc.
  - rewrite <- !app_assoc. cbn. by rewrite <- ?app_assoc.
Qed.

End wizard_more.

(** ** More on the project editor *)

Section editor_more.
Import ProjectEditor.
Context {B : Type} (be : Backend B).


(** Without a prompt, or with a blank one, [refineContent] asks for one
    and does nothing else: no request is sent and the page state is
    unchanged. *)
Theorem refineContent_blank_prompt (w : World State B) (itemId : string) :
  JS.truthy_trim (refinementPrompts (ui w) !! itemId) = false →
  dispatch (refineContent be itemId) w
  = mkWorld (ui w) (srv w)
      (trace w ++ [Toast Error "Please enter a refinement prompt"]).
Proof.
  intros H. unfold dispatch, refineContent. by rewrite H.
Qed.



(** When the item is not among the items of the project and the server
    answers the request, [acceptRefinement] reports success although no
    content changes; what was pending for the item is dropped. *)
Theorem acceptRefinement_unknown_item (w : World State B) (itemId : string)
    (p : Project.t) (items : list Item.t) (b' : B) :
  project (ui w) = Some p →
  items_of p = Some items →
  JS.findIndex (λ item, String.eqb (Item.id item) itemId) items = None →
  be (AcceptRefinement (Project.id p) itemId) (srv w) = (Ok tt, b') →
  dispatch (acceptRefinement be itemId) w
  = mkWorld
      (with_refinementResults (<[itemId := None]> (refinementResults (ui w)))
         (with_project (Some p) (ui w)))
      b'
      (trace w ++ [Sent (AcceptRefinement (Project.id p) itemId);
                   Toast Success "Refinement accepted!"]).
Proof.
  intros Hp Hitems Hidx Hbe.
  unfold acceptRefinement, setProject, setRefinementResults. munfold.
  rewrite Hp. cbn. rewrite Hbe. cbn. rewrite Hitems. cbn. rewrite Hidx. cbn.
  by rewrite <- app_assoc.
Qed.

End editor_more.

Section editor_generation.
Import ProjectEditor.
Context {B : Type} (be : Backend B).

(** When the server answers, [generateContent] stores the content and its
    time in the item with the identifier, the first one if several have
    it, and in no other item of the list. *)
Theorem generateContent_ok (w : World State B) (itemId : string)
    (isSlide : bool) (p : Project.t) (items : list Item.t) (itemIndex : nat)
    (result : Generated) (b' : B) :
  project (ui w) = Some p →
  generated_in isSlide p = Some items →
  JS.findIndex (λ item, String.eqb (Item.id item) itemId) items
  = Some itemIndex →
  (if isSlide then be (GenerateSlideContent (Project.id p) itemId) (srv w)
   else be (GenerateSectionContent (Project.id p) itemId) (srv w))
  = (Ok result, b') →
  let w' := dispatch (generateContent be itemId isSlide) w in
  ∃ p' items',
    project (ui w') = Some p'
    ∧ generated_in isSlide p' = Some items'
    ∧ length items' = length items
    ∧ (∀ k, k ≠ itemIndex → items' !! k = items !! k)
    ∧ (∃ item, items !! itemIndex = Some item
         ∧ items' !! itemIndex
           = Some (Item.mk (Item.id item) (Item.title item) (Item.order item)
                     (Some (gen_content result))
                     (Some (gen_generated_at result))))
    ∧ Toast Success "Content generated successfully!" ∈ trace w'.
Proof.
  intros Hp Hitems Hidx Hbe. unfold generated_in in *.
  unfold generateContent, setGenerating, setProject. munfold. cbn.
  rewrite Hp. cbn. destruct isSlide; cbn; rewrite Hbe; cbn.
  all: rewrite Hitems; cbn; rewrite Hidx; cbn.
  all: eexists _, _; split; [done|]; cbn; split; [done|].
  all: split; [by rewrite length_alter|].
  all: split; [by intros k Hk; rewrite list_lookup_alter_ne|].
  all: assert (Hlt : itemIndex < length items).
  all: try (clear -Hidx; revert itemIndex Hidx;
            induction items as [|x l IH]; intros i; cbn; [done|];
            destruct (String.eqb _ _); [intros [= <-]; lia|];
            destruct (JS.findIndex _ l) as [j|]; cbn; [|done];
            intros [= <-]; specialize (IH j eq_refl); lia).
  all: destruct (lookup_lt_is_Some_2 items itemIndex Hlt) as [item Hitem].
  all: split; [exists item; split; [done|];
               by rewrite list_lookup_alter_eq, Hitem|].
  all: apply elem_of_app; right; apply list_elem_of_here.
Qed.

(** [generateContent] never touches what is pending or typed, and marks
    the item as not generating when it ends, whatever happened; when the
    request is refused the project is unchanged. *)
Theorem generateContent_frame (w : World State B) (itemId : string)
    (isSlide : bool) :
  let w' := dispatch (generateContent be itemId isSlide) w in
  refinementResults (ui w') = refinementResults (ui w)
  ∧ refinementPrompts (ui w') = refinementPrompts (ui w)
  ∧ comments (ui w') = comments (ui w)
  ∧ generating (ui w') = <[itemId := false]> (generating (ui w))
  ∧ (∀ p status b',
       project (ui w) = Some p →
       (if isSlide
        then be (GenerateSlideContent (Project.id p) itemId) (srv w)
        else be (GenerateSectionContent (Project.id p) itemId) (srv w))
       = (Rejected status, b') →
       project (ui w') = project (ui w)).
Proof.
  unfold generateContent, setGenerating, setProject. munfold. cbn.
  destruct (project (ui w)) as [p|] eqn:Hp; cbn; [|done].
  destruct isSlide; cbn.
  all: destruct (be _ _) as [[result|status] b'] eqn:Hbe; cbn; [|done].
  all: repeat case_match; simplify_eq/=; repeat split; try done.
  all: by refused.
Qed.

(** [generateAllContent] replaces the list of the document type by the
    one of the answer, even when the answer carries none, and marks the
    project as completed; when the request is refused the page state is
    unchanged. *)
Theorem generateAllContent_outcome (w : World State B) (p : Project.t) :
  project (ui w) = Some p →
  let w' := dispatch (generateAllContent be) w in
  (∀ result b',
     be (GenerateAllSections (Project.id p)) (srv w) = (Ok result, b') →
     project (ui w')
     = Some (Project.set_status "completed"
               (if String.eqb (Project.document_type p) "docx"
                then Project.set_sections (outline_sections result) p
                else Project.set_slides (outline_slides result) p)))
  ∧ (∀ status b',
       be (GenerateAllSections (Project.id p)) (srv w) = (Rejected status, b') →
       ui w' = ui w)
  ∧ refinementResults (ui w') = refinementResults (ui w).
Proof.
  intros Hp. unfold generateAllContent, setProject. munfold. cbn.
  rewrite Hp. cbn.
  destruct (be _ _) as [[result|status] b'] eqn:Hbe; cbn.
  all: repeat split; try done; intros; by simplify_eq.
Qed.

(** [fetchProject] stops the loading indicator in every case; a refusal
    sends the user back to the dashboard with an error and loads nothing. *)
Theorem fetchProject_outcome (w : World State B) (id : string) :
  let w' := dispatch (fetchProject be id) w in
  loading (ui w') = false
  ∧ (∀ p b', be (GetProject id) (srv w) = (Ok p, b') →
       project (ui w') = Some p ∧ trace w' = trace w ++ [Sent (GetProject id)])
  ∧ (∀ status b', be (GetProject id) (srv w) = (Rejected status, b') →
       project (ui w') = project (ui w)
       ∧ trace w' = trace w
           ++ [Sent (GetProject id); Failed (GetProject id) status]
           ++ intercept status
           ++ [Toast Error "Error loading project"; Navigate "/dashboard"]).
Proof.
  unfold fetchProject, setProject, setLoading. munfold. cbn.
  destruct (be _ _) as [[p|status] b'] eqn:Hbe; cbn.
  all: repeat split; try done; intros; simplify_eq; try done.
  rewrite <- !app_assoc. cbn. by rewrite <- ?app_assoc.
Qed.

End editor_generation.

(** ** Downloads and the dashboard *)

Section dashboard_more.
Context {B : Type} (be : Backend B).

(** The editor and the dashboard offer a file for download only in a run
    in which no call failed, and at most one file per run. *)
Theorem download_only_on_success (w : World ProjectEditor.State B)
    (v : World Dashboard.State B) (q : Project.t) :
  (∃ evs, trace (dispatch (ProjectEditor.exportDocument be) w) = trace w ++ evs
     ∧ length (List.filter is_download evs)
       + length (List.filter is_failed evs) ≤ 1)
  ∧ (∃ evs, trace (dispatch (Dashboard.handleExport be q) v) = trace v ++ evs
     ∧ length (List.filter is_download evs)
       + length (List.filter is_failed evs) ≤ 1).
Proof.
  unfold ProjectEditor.exportDocument, Dashboard.handleExport,
    Dashboard.setMenuOpen.
  split; munfold; cbn; repeat case_match; simplify_eq/=;
    rewrite <- ?app_assoc; eexists; (split; [reflexivity|]);
    cbn; unfold intercept; repeat case_decide; cbn; lia.
Qed.

(** [handleDelete] closes the menu in every case.  Without confirmation it
    sends nothing and keeps the list; after a confirmed and answered
    request the list holds the projects with another identifier, in their
    order; after a refused one the list is unchanged. *)
Theorem handleDelete_outcome (v : World Dashboard.State B)
    (projectId : string) (confirmed : bool) :
  let v' := dispatch (Dashboard.handleDelete be projectId confirmed) v in
  Dashboard.menuOpen (ui v') = None
  ∧ (confirmed = false →
     v' = mkWorld (Dashboard.with_menuOpen None (ui v)) (srv v) (trace v))
  ∧ (∀ b', confirmed = true →
       be (DeleteProject projectId) (srv v) = (Ok tt, b') →
       (Dashboard.projects (ui v')
        = List.filter (λ p, negb (String.eqb (Project.id p) projectId))
                      (Dashboard.projects (ui v)))
       ∧ (projectId ∉ Project.id <$> Dashboard.projects (ui v'))
       ∧ trace v' = trace v ++ [Sent (DeleteProject projectId);
                                Toast Success "Project deleted successfully"])
  ∧ (∀ status b', confirmed = true →
       be (DeleteProject projectId) (srv v) = (Rejected status, b') →
       Dashboard.projects (ui v') = Dashboard.projects (ui v)
       ∧ trace v' = trace v
           ++ [Sent (DeleteProject projectId);
               Failed (DeleteProject projectId) status]
           ++ intercept status ++ [Toast Error "Error deleting project"]).
Proof.
  unfold Dashboard.handleDelete, Dashboard.setProjects, Dashboard.setMenuOpen.
  munfold. destruct confirmed; cbn.
  2:{ repeat split; try done. }
  destruct (be _ _) as [[[]|status] b'] eqn:Hbe; cbn.
  - repeat split; try done; try (by refused).
    + intros Hin. apply list_elem_of_fmap in Hin as (p & -> & Hin).
      apply list_elem_of_In, filter_In in Hin as [_ Hne].
      by rewrite String.eqb_refl in Hne.
    + intros; by rewrite <- app_assoc.
  - repeat split; try done; try (by refused).
    intros. simplify_eq. rewrite <- !app_assoc. cbn. by rewrite <- ?app_assoc.
Qed.

(** [fetchProjects] sends the search term, and the document type unless the
    filter is "all"; it stops the loading indicator in every case, and a
    refused request leaves the list as it is. *)
Theorem fetchProjects_outcome (v : World Dashboard.State B) :
  let r := GetProjects (Dashboard.searchTerm (ui v))
             (if String.eqb (Dashboard.filter (ui v)) "all" then None
              else Some (Dashboard.filter (ui v))) in
  let v' := dispatch (Dashboard.fetchProjects be) v in
  Dashboard.loading (ui v') = false
  ∧ (∃ evs, trace v' = trace v ++ Sent r :: evs)
  ∧ (∀ l b', be r (srv v) = (Ok l, b') → Dashboard.projects (ui v') = l)
  ∧ (∀ status b', be r (srv v) = (Rejected status, b') →
       Dashboard.projects (ui v') = Dashboard.projects (ui v)).
Proof.
  unfold Dashboard.fetchProjects, Dashboard.setProjects, Dashboard.setLoading.
  munfold. cbn.
  destruct (be _ _) as [[l|status] b'] eqn:Hbe; cbn.
  all: repeat split; try done; try (intros; by simplify_eq).
  all: rewrite <- ?app_assoc; cbn; eauto.
Qed.

End dashboard_more.

(** ** The profile page *)

Section profile_more.
Context {B : Type} (be : Backend B).

(** When the profile cannot be loaded, the page falls back on the user of
    the authentication context: the name, or else the full name, and the
    e-mail address, with the other fields empty; nothing is shown to the
    user.  When it can be loaded, an empty name or address of the answer
    is filled from the context too. *)
Theorem loadProfileData_fallback (w : World Profile.State B) :
  let w' := dispatch (Profile.loadProfileData be) w in
  (∀ status b', be GetProfile (srv w) = (Rejected status, b') →
     Profile.profileData (ui w')
     = ProfileData.mk
         (Profile.first_truthy (Profile.user_name (ui w))
                               (Profile.user_full_name (ui w)))
         (JS.or_empty (Profile.user_email (ui w))) "" "" "" ""
     ∧ ∃ evs, trace w' = trace w ++ evs
              ∧ existsb is_notification evs = false)
  ∧ (∀ profile b', be GetProfile (srv w) = (Ok profile, b') →
       ProfileData.name (Profile.profileData (ui w'))
       = (if JS.truthy (ProfileData.name profile)
          then ProfileData.name profile
          else JS.or_empty (Profile.user_name (ui w)))
       ∧ ProfileData.bio (Profile.profileData (ui w'))
         = ProfileData.bio profile)
  ∧ Profile.stats (ui w') = Profile.stats (ui w)
  ∧ Profile.preferences (ui w') = Profile.preferences (ui w).
Proof.
  unfold Profile.loadProfileData, Profile.setProfileData. munfold. cbn.
  destruct (be _ _) as [[profile|status] b'] eqn:Hbe; cbn.
  all: split; [|split; [|done]].
  - intros ? ? [=].
  - intros ? ? [= <- <-]. unfold Profile.first_truthy. cbn.
    destruct (JS.truthy (ProfileData.name profile)) eqn:Hname;
      [by rewrite Hname|done].
  - intros ? ? [= <- <-]. split; [done|].
    rewrite <- !app_assoc. eexists. split; [done|].
    unfold intercept. by case_decide.
  - intros ? ? [=].
Qed.

End profile_more.

(** ** Authentication *)

Section auth.
Import Auth.
Context {B : Type} (be : Backend B).


Lemma authorization_delete (storage : gmap string string) :
  authorization (delete "user" (delete "token" storage)) = None.
Proof.
  unfold authorization.
  by rewrite lookup_delete_ne, lookup_delete_eq.
Qed.


(** A request that is answered with status 401 ends the stored session:
    token and user leave the storage, the browser is sent to the login
    page, and the next request carries no bearer.  The state of the
    provider is not touched. *)
Theorem unauthorized_ends_session (w : World B) (c : Call)
    (detail : option string) (b' : B) :
  be c (authorization (storage w)) (srv w) = (Refused (Some 401) detail, b') →
  let w' := run (api be c) w in
  storage w' !! "token" = None
  ∧ storage w' !! "user" = None
  ∧ href w' = Some "/login"
  ∧ ctx w' = ctx w
  ∧ ∀ c', ∃ reply, sent (run (api be c') w') = sent w' ++ [(c', None)]
                   ∧ be c' None b' = reply.
Proof.
  intros Hbe. aunfold. rewrite Hbe. cbn.
  rewrite decide_True by done. cbn.
  rewrite lookup_delete_ne, lookup_delete_eq by done.
  rewrite lookup_delete_eq. repeat split; try done.
  intros c'. rewrite authorization_delete. eexists. split; [|done].
  by destruct (be c' _ _) as [[d|st detail'] b'']; cbn; [|case_decide].
Qed.

(** The logout of the provider cannot fail and always ends the session:
    whatever Clerk and the server do, the provider has no user and no
    token afterwards and the storage neither, so that later requests
    carry no bearer; the header therefore always reports success and
    opens the login page.  When the sign-out of Clerk fails, the server is
    not told. *)
Theorem logout_always_clears (w : World B) (clerk : option bool) :
  let w' := run (logout be clerk) w in
  (logout be clerk w).1 = inr tt
  ∧ ctx w' = mkContext None None (loading (ctx w))
  ∧ storage w' !! "token" = None
  ∧ storage w' !! "user" = None
  ∧ authorization (storage w') = None
  ∧ (clerk = Some false → sent w' = sent w)
  ∧ ∃ evs, shown (run (handleLogout be clerk) w)
           = shown w ++ evs ++ [Toast Success "Logged out successfully";
                                Navigate "/login"].
Proof.
  unfold handleLogout, logout, authAPI_logout. aunfold.
  destruct clerk as [[]|]; cbn.
  all: try (destruct (be Logout _ _) as [[[]|st detail] b'] eqn:Hbe; cbn).
  all: try case_decide; cbn.
  all: unfold authorization.
  all: rewrite ?lookup_delete_eq; rewrite ?(lookup_delete_ne _ "user" "token") by done.
  all: rewrite ?lookup_delete_eq.
  all: repeat split; try done.
  all: rewrite <- ?app_assoc; cbn.
  all: first [by exists [] | by exists [ConsoleError]].
Qed.



(** [login] catches whatever its calls throw: it always returns a
    result. *)
Lemma login_returns (w : World B) (credentials : Credentials) :
  ∃ result w', login be credentials w = (inr result, w').
Proof.
  unfold login, Auth.try_catch.
  match goal with
  | |- context [match ?x with _ => _ end] => destruct x as [[e|a] w1]
  end.
  - aunfold. cbn. eauto.
  - eauto.
Qed.

(** A registration that the server accepts is reported as a success with
    the new user, whether the login that follows it succeeds or not. *)
Theorem register_ignores_login (w : World B) (userData : Registration)
    (newUser : User) (b' : B) :
  be (Register userData) (authorization (storage w)) (srv w)
  = (Fine newUser, b') →
  (register be userData w).1 = inr (Succeeded newUser).
Proof.
  intros Hbe.
  unfold register. aunfold. cbn. rewrite Hbe. cbn.
  match goal with
  | |- context [login be ?c ?v] =>
      destruct (login_returns v c) as (result & v' & ->)
  end.
  done.
Qed.

(** Starting the provider always ends its loading state.  Without a token
    it sends nothing; with a token that the server does not accept it
    forgets the token, in the storage and in its state, and has no new
    user. *)
Theorem initAuth_outcome (w : World B) :
  let w' := run (initAuth be None) w in
  loading (ctx w') = false
  ∧ (JS.truthy (JS.or_empty (token (ctx w))) = false →
     sent w' = sent w ∧ storage w' = storage w ∧ user (ctx w') = user (ctx w))
  ∧ (∀ status detail b',
       JS.truthy (JS.or_empty (token (ctx w))) = true →
       be GetCurrentUser (authorization (storage w)) (srv w)
       = (Refused status detail, b') →
       storage w' !! "token" = None
       ∧ token (ctx w') = None
       ∧ user (ctx w') = user (ctx w))
  ∧ (∀ u b',
       JS.truthy (JS.or_empty (token (ctx w))) = true →
       be GetCurrentUser (authorization (storage w)) (srv w) = (Fine u, b') →
       user (ctx w') = Some u ∧ storage w' = storage w).
Proof.
  unfold initAuth. aunfold. cbn.
  destruct (JS.truthy _) eqn:Ht; cbn.
  2:{ repeat split; try done. }
  destruct (be _ _ _) as [[u|status detail] b'] eqn:Hbe; cbn.
  - split; [done|]. split; [done|]. split; [intros ? ? ? _ [=]|].
    by intros ? ? _ [= <- <-].
  - case_decide; cbn.
    all: split; [done|]; split; [done|]; split; [|intros ? ? _ [=]].
    all: intros ? ? ? _ _; by rewrite lookup_delete_eq.
Qed.

(** The service stores the token of a login under its own key as well,
    and its logout removes only that key: unless the key is "token", the
    requests that follow a logout of the service still carry the
    bearer. *)
Theorem AuthService_logout_keeps_bearer (w : World B) (key : string)
    (credentials : Credentials) (t : string) (u : option User) (b' : B) :
  key ≠ "token" →
  JS.truthy t = true →
  be (Login credentials) (authorization (storage w)) (srv w)
  = (Fine (mkLoginData (Some t) u), b') →
  let w1 := run (AuthService_login be key credentials) w in
  let w2 := run (AuthService_logout key) w1 in
  storage w1 !! key = Some t
  ∧ storage w1 !! "token" = Some t
  ∧ storage w2 !! key = None
  ∧ authorization (storage w2) = Some ("Bearer " +:+ t).
Proof.
  intros Hkey Ht Hbe. unfold AuthService_login, AuthService_logout, authAPI_login.
  aunfold. cbn. rewrite Hbe. cbn. rewrite ?Ht. cbn. rewrite ?Ht. cbn.
  rewrite lookup_insert_eq, lookup_insert_ne, lookup_insert_eq by done.
  rewrite lookup_delete_eq. repeat split; try done.
  unfold authorization.
  by rewrite lookup_delete_ne, lookup_insert_ne, lookup_insert_eq, Ht.
Qed.

(** The service never fails when asked for the current user: without a
    token it answers [null] and sends nothing, and a refused request
    gives [null] too.  A Clerk session decides alone: when it yields no
    token, a token in the storage is not used. *)
Theorem AuthService_getCurrentUser_total (w : World B) (key : string)
    (session : option (Thrown + option string)) :
  (∃ r, (AuthService_getCurrentUser be key session w).1 = inr r)
  ∧ (session = Some (inr None) ∨ (session = None ∧ storage w !! key = None) →
     AuthService_getCurrentUser be key session w = (inr None, w)).
Proof.
  unfold AuthService_getCurrentUser, AuthService_getToken. aunfold. split.
  - destruct session as [[e|[t|]]|]; cbn; repeat case_match; simplify_eq/=;
      eauto.
  - intros [->|[-> Hnone]]; cbn; [done|]. by rewrite Hnone.
Qed.

End auth.
(** ** The further properties at the sample data *)

(** The wizard of the sample asks for an outline while the model behind
    the server is down: the temporary project is created and not
    deleted. *)
Lemma generateAIOutline_outline_fails_witness :
  dispatch (NewProject.generateAIOutline Sample2.stateless)
    (mkWorld Sample.wizard false [])
  = mkWorld Sample.wizard false
      [Sent (CreateProject (tempData Sample.wizard));
       Sent (GenerateOutline "0" 5);
       Failed (GenerateOutline "0" 5) (Some 502);
       Toast Error "Error generating AI outline"; ConsoleError].
Proof.
  exact (generateAIOutline_outline_fails Sample2.stateless
           (mkWorld Sample.wizard false []) Sample2.temporary (Some 502)
           false false eq_refl eq_refl).
Defined.

(** The same with the model up, on a server that refuses to delete: the
    outline is in the structure, and the user reads that it failed. *)
Lemma generateAIOutline_delete_fails_witness :
  let w' := dispatch (NewProject.generateAIOutline Sample2.stateless)
              (mkWorld Sample.wizard true []) in
  NewProject.structure (ui w') = default [] (outline_sections Sample.outline)
  ∧ ∃ evs, trace w' = [] ++ evs
           ++ [Toast Error "Error generating AI outline"; ConsoleError]
      ∧ ∀ msg, Toast Success msg ∉ evs.
Proof.
  exact (generateAIOutline_delete_fails Sample2.stateless
           (mkWorld Sample.wizard true []) Sample2.temporary Sample.outline
           (Some 500) true true true eq_refl eq_refl eq_refl).
Defined.

(** The wizard with one section creates the project and opens its
    editor. *)
Lemma createProject_outcome_witness :
  let w := mkWorld Sample2.wizard_with_section true [] in
  let w' := dispatch (NewProject.createProject Sample2.stateless) w in
  ui w' = ui w
  ∧ trace w'
    = [Sent (CreateProject
               (ProjectData.mk (NewProject.formData Sample2.wizard_with_section)
                  (Some (NewProject.structure Sample2.wizard_with_section))
                  None));
       Toast Success "Project created successfully!";
       Navigate "/projects/0/edit"].
Proof.
  cbv zeta.
  destruct (createProject_outcome Sample2.stateless
              (mkWorld Sample2.wizard_with_section true []))
    as (Hui & Hok & _); [discriminate|].
  split; [exact Hui|]. exact (Hok Sample2.temporary true eq_refl).
Defined.

(** No prompt was typed for the item "s2". *)
Lemma refineContent_blank_prompt_witness :
  dispatch (ProjectEditor.refineContent Sample2.stateless "s2")
    (mkWorld Sample.editor true [])
  = mkWorld Sample.editor true
      [Toast Error "Please enter a refinement prompt"].
Proof.
  exact (refineContent_blank_prompt Sample2.stateless
           (mkWorld Sample.editor true []) "s2" eq_refl).
Defined.

(** The sample report has no item "s9". *)
Lemma acceptRefinement_unknown_item_witness :
  trace (dispatch (ProjectEditor.acceptRefinement Sample2.stateless "s9")
           (mkWorld Sample.editor true []))
  = [Sent (AcceptRefinement "p1" "s9"); Toast Success "Refinement accepted!"].
Proof.
  exact (f_equal trace
           (acceptRefinement_unknown_item Sample2.stateless
              (mkWorld Sample.editor true [])
              "s9" Sample.report [Sample.intro] true
              eq_refl eq_refl eq_refl eq_refl)).
Defined.

(** Content is generated for the section of the sample report. *)
Lemma generateContent_ok_witness :
  let w := mkWorld Sample.editor true [] in
  let w' := dispatch (ProjectEditor.generateContent Sample2.stateless "s1" false) w in
  ∃ p' items',
    ProjectEditor.project (ui w') = Some p'
    ∧ generated_in false p' = Some items'
    ∧ items' !! 0
      = Some (Item.mk "s1" "Introduction" 1
                (Some (Text "Sales grew by a tenth."))
                (Some "2025-01-01T00:00:00")).
Proof.
  cbv zeta.
  destruct (generateContent_ok Sample2.stateless
              (mkWorld Sample.editor true [])
              "s1" false Sample.report [Sample.intro] 0 Sample2.generated
              true eq_refl eq_refl eq_refl eq_refl)
    as (p' & items' & Hp' & Hitems' & _ & _ & (item & Hitem & Hnew) & _).
  exists p', items'. split; [exact Hp'|]. split; [exact Hitems'|].
  injection Hitem as <-. exact Hnew.
Defined.

(** All content of the sample report is generated; the answer carries no
    sections, and the report has none afterwards. *)
Lemma generateAllContent_outcome_witness :
  let w := mkWorld Sample.editor true [] in
  let w' := dispatch (ProjectEditor.generateAllContent Sample2.stateless) w in
  ProjectEditor.project (ui w')
  = Some (Project.set_status "completed"
            (Project.set_sections None Sample.report)).
Proof.
  cbv zeta.
  destruct (generateAllContent_outcome Sample2.stateless
              (mkWorld Sample.editor true []) Sample.report eq_refl)
    as (Hok & _).
  exact (Hok (mkOutline None None) true eq_refl).
Defined.

(** A request with a token that the server does not know. *)
Lemma unauthorized_ends_session_witness :
  let w' := Auth.run (Auth.api AuthSample.respond Auth.GetCurrentUser)
              AuthSample.stale in
  Auth.storage w' !! "token" = None
  ∧ Auth.storage w' !! "user" = None
  ∧ Auth.href w' = Some "/login"
  ∧ Auth.ctx w' = Auth.ctx AuthSample.stale
  ∧ ∀ c', ∃ reply,
      Auth.sent (Auth.run (Auth.api AuthSample.respond c') w')
      = Auth.sent w' ++ [(c', None)]
      ∧ AuthSample.respond c' None tt = reply.
Proof.
  refine (unauthorized_ends_session AuthSample.respond AuthSample.stale
            Auth.GetCurrentUser (Some "Could not validate credentials") tt _).
  reflexivity.
Defined.



(** A new user registers with a password that the login then refuses to
    be Ada's: the registration counts as a success. *)
Lemma register_ignores_login_witness :
  (Auth.register AuthSample.respond
     (Auth.mkRegistration "b@x.com" "pw" "Bob") AuthSample.fresh).1
  = inr (Auth.Succeeded (Auth.mkUser "u2" "b@x.com" "Bob")).
Proof.
  refine (register_ignores_login AuthSample.respond AuthSample.fresh
            (Auth.mkRegistration "b@x.com" "pw" "Bob")
            (Auth.mkUser "u2" "b@x.com" "Bob") tt _).
  reflexivity.
Defined.

(** The service keeps its token under "jwt". *)
Lemma AuthService_logout_keeps_bearer_witness :
  let w1 := Auth.run (Auth.AuthService_login AuthSample.respond "jwt"
                        AuthSample.secret) AuthSample.fresh in
  let w2 := Auth.run (Auth.AuthService_logout "jwt") w1 in
  Auth.storage w1 !! "jwt" = Some "t0k"
  ∧ Auth.storage w1 !! "token" = Some "t0k"
  ∧ Auth.storage w2 !! "jwt" = None
  ∧ Auth.authorization (Auth.storage w2) = Some "Bearer t0k".
Proof.
  refine (AuthService_logout_keeps_bearer AuthSample.respond AuthSample.fresh
            "jwt" AuthSample.secret "t0k" (Some AuthSample.ada) tt _ _ _);
    (reflexivity || discriminate).
Defined.
